(** * Volume control facade (mcpserver/deployment.py)

    A shallow embedding of the [VolumeController] class and of the five
    tool functions that render its results, with the Python values the
    code computes on: binary64 floats, integers used as truth values,
    byte strings and dictionaries with string keys. *)

From Stdlib Require Import ZArith List String Ascii Bool Lia.
From Stdlib Require Import Floats DecimalString.
Import ListNotations.

Local Open Scope string_scope.

(** Decimal float literals denote the nearest binary64 value, as they do
    in the source language. *)
Set Warnings "-inexact-float".
Local Open Scope Z_scope.

(** ** Python floats *)

Module PyFloat.

(** An integer below [2^53] as a float; the conversion is exact there. *)
Definition of_Z (n : Z) : float := PrimFloat.of_uint63 (Uint63.of_Z n).

(** The integer nearest to [n / d] for [0 <= n] and [0 < d], a tie going
    to the even neighbour. *)
Definition div_half_even (n d : Z) : Z :=
  let q := n / d in
  match 2 * (n mod d) ?= d with
  | Lt => q
  | Gt => q + 1
  | Eq => if Z.even q then q else q + 1
  end.

(** [|x| * 10^ndigits] rounded to an integer, for the finite float with
    mantissa [m] and exponent [e]; computed on the exact value. *)
Definition scaled (m : positive) (e ndigits : Z) : Z :=
  if 0 <=? e then Zpos m * 2 ^ e * 10 ^ ndigits
  else div_half_even (Zpos m * 10 ^ ndigits) (2 ^ (- e)).

(** The builtin [round(x, ndigits)] on a float, for [0 <= ndigits <= 22]:
    the exact value of [x] is rounded half-even to [ndigits] decimals and
    the decimal is read back as the nearest float. Not-a-number, the
    infinities and the zeros round to themselves. When the scaled integer
    no longer fits 53 bits the spacing of floats around [x] exceeds
    [10^-ndigits] and the decimal reads back as [x]. *)
Definition round (x : float) (ndigits : Z) : float :=
  match Prim2SF x with
  | S754_finite s m e =>
      let q := scaled m e ndigits in
      if q <? 2 ^ 53 then
        let r := (of_Z q / of_Z (10 ^ ndigits))%float in
        if s then (- r)%float else r
      else x
  | _ => x
  end.

(** *** [repr] of a float: the shortest decimal that reads back *)

(** [floor (log10 (n / d))] for positive [n] and [d]. *)
Fixpoint log10_ge (fuel : nat) (n d : Z) : Z :=
  match fuel with
  | O => 0
  | S fuel' => if d * 10 <=? n then 1 + log10_ge fuel' n (d * 10) else 0
  end.

Fixpoint log10_lt (fuel : nat) (n d : Z) : Z :=
  match fuel with
  | O => 0
  | S fuel' => if n <? d then log10_lt fuel' (n * 10) d - 1 else 0
  end.

Definition floor_log10 (n d : Z) : Z :=
  if d <=? n then log10_ge 400 n d else log10_lt 400 n d.

(** A positive rational [num / den]; [scale10 j] multiplies by [10^-j]. *)
Definition scale10 (j : Z) (nd : Z * Z) : Z * Z :=
  let (n, d) := nd in
  if 0 <=? j then (n, d * 10 ^ j) else (n * 10 ^ (- j), d).

(** The rounding interval of the float [m * 2^e] in units of [2^(e-2)]:
    every real strictly between the two bounds reads back as the float,
    and the bounds themselves do when [m] is even. *)
Definition interval (m : positive) (e : Z) : Z * Z :=
  let lo := if (Zpos m =? 2 ^ 52) && (-1074 <? e)
            then 4 * Zpos m - 1 else 4 * Zpos m - 2 in
  (lo, 4 * Zpos m + 2).

(** Does the decimal [c * 10^j] read back as the float [m * 2^e]? With
    [(un, ud)] the unit [2^(e-2) * 10^-j] as a fraction. *)
Definition reads_back (m : positive) (e : Z) (un ud c : Z) : bool :=
  let (lo, hi) := interval m e in
  if Z.even (Zpos m)
  then (lo * un <=? c * ud) && (c * ud <=? hi * un)
  else (lo * un <? c * ud) && (c * ud <? hi * un).

Fixpoint strip_zeros (fuel : nat) (c j : Z) : Z * Z :=
  match fuel with
  | O => (c, j)
  | S fuel' => if (c mod 10 =? 0) && (0 <? c)
               then strip_zeros fuel' (c / 10) (j + 1) else (c, j)
  end.

(** The shortest digits [c] and exponent [j] with [c * 10^j] reading back
    as [m * 2^e], trying [n], [n + 1], ... significant digits. *)
Fixpoint shortest (fuel : nat) (n : Z) (m : positive) (e k : Z) : Z * Z :=
  let j := k - n + 1 in
  let unit2 := if 0 <=? e - 2 then (2 ^ (e - 2), 1) else (1, 2 ^ (2 - e)) in
  let (un, ud) := scale10 j unit2 in
  let lo := (4 * Zpos m * un) / ud in
  let hi := lo + 1 in
  let ok_lo := reads_back m e un ud lo in
  let ok_hi := reads_back m e un ud hi in
  let pick :=
    if ok_lo && ok_hi
    then match 2 * (4 * Zpos m * un) - 2 * lo * ud ?= ud with
         | Lt => Some lo
         | Gt => Some hi
         | Eq => if Z.even lo then Some lo else Some hi
         end
    else if ok_lo then Some lo
    else if ok_hi then Some hi
    else None in
  match pick, fuel with
  | Some c, _ => strip_zeros 20 c j
  | None, S fuel' => shortest fuel' (n + 1) m e k
  | None, O => ((4 * Zpos m * un) / ud, j)
  end.

Definition digits (n : Z) : string := NilZero.string_of_uint (N.to_uint (Z.to_N n)).

Fixpoint zeros (n : nat) : string :=
  match n with O => "" | S n' => String "0" (zeros n') end.

(** The layout of [repr]: positional notation while the decimal point
    falls within [-4 < decpt <= 16], exponent notation otherwise. *)
Definition layout (ds : string) (decpt : Z) : string :=
  let nd := Z.of_nat (String.length ds) in
  if (decpt <=? -4) || (16 <? decpt) then
    let ex := decpt - 1 in
    let mant := match ds with
                | String d "" => String d ""
                | String d rest => String d ("." ++ rest)
                | "" => ""
                end in
    let exs := digits (Z.abs ex) in
    mant ++ "e" ++ (if ex <? 0 then "-" else "+")
         ++ (if Z.abs ex <? 10 then "0" else "") ++ exs
  else if decpt <=? 0 then "0." ++ zeros (Z.to_nat (- decpt)) ++ ds
  else if decpt <? nd then
    substring 0 (Z.to_nat decpt) ds ++ "."
      ++ substring (Z.to_nat decpt) (Z.to_nat (nd - decpt)) ds
  else ds ++ zeros (Z.to_nat (decpt - nd)) ++ ".0".

(** [repr(x)], which is also [str(x)] and what an f-string writes. *)
Definition repr (x : float) : string :=
  match Prim2SF x with
  | S754_nan => "nan"
  | S754_infinity s => if s then "-inf" else "inf"
  | S754_zero s => if s then "-0.0" else "0.0"
  | S754_finite s m e =>
      let k := if 0 <=? e then floor_log10 (Zpos m * 2 ^ e) 1
               else floor_log10 (Zpos m) (2 ^ (- e)) in
      let (c, j) := shortest 17 1 m e k in
      let ds := digits c in
      let body := layout ds (j + Z.of_nat (String.length ds)) in
      if s then "-" ++ body else body
  end.

End PyFloat.

(** ** Python values, exceptions and dictionaries *)

(** An exception object, an instance of [Exception]: the class of what
    the endpoint calls and the facade raise, and the one every handler of
    the source names. [exn_bases] lists its classes below [Exception], most
    derived first, and [exn_str] is what [str(e)] and an f-string give. *)
Record exn := mk_exn { exn_bases : list string; exn_str : string }.

Definition isinstance (e : exn) (cls : string) : bool :=
  existsb (String.eqb cls) (exn_bases e).

Definition RuntimeError (msg : string) : exn := mk_exn ["RuntimeError"] msg.
Definition ValueError (msg : string) : exn := mk_exn ["ValueError"] msg.

(** [str(KeyError(k))] is the [repr] of the key. *)
Definition KeyError (k : string) : exn :=
  mk_exn ["KeyError"; "LookupError"] ("'" ++ k ++ "'").

Inductive outcome (A : Type) : Type :=
| Ok (a : A)
| Raise (e : exn).
Arguments Ok {A} a.
Arguments Raise {A} e.

Definition raised {A} (r : outcome A) : option exn :=
  match r with Ok _ => None | Raise e => Some e end.

(** The values the result dictionaries hold. *)
Inductive value : Type :=
| VFloat (x : float)
| VBool (b : bool)
| VStr (s : string).

(** A dictionary with string keys, in insertion order. *)
Definition dict : Type := list (string * value).

Fixpoint dict_get (d : dict) (k : string) : option value :=
  match d with
  | [] => None
  | (k', v) :: d' => if String.eqb k k' then Some v else dict_get d' k
  end.

(** Truth value of an integer, as [if x], [not x] and [bool(x)] take it. *)
Definition truthy (x : Z) : bool := negb (x =? 0).

Definition value_truthy (v : value) : bool :=
  match v with
  | VFloat x => negb (x =? 0)%float
  | VBool b => b
  | VStr s => negb (String.eqb s "")
  end.

(** [v == s] for a string [s]. *)
Definition value_eq_str (v : value) (s : string) : bool :=
  match v with VStr s' => String.eqb s' s | _ => false end.

(** What an f-string writes for a value. *)
Definition format (v : value) : string :=
  match v with
  | VFloat x => PyFloat.repr x
  | VBool b => if b then "True" else "False"
  | VStr s => s
  end.

(** A string given by its UTF-8 bytes. *)
Definition utf8 (bytes : list N) : string :=
  string_of_list_ascii (map ascii_of_N bytes).

(** A text is on one line when it holds no line feed. *)
Fixpoint single_line (s : string) : bool :=
  match s with
  | EmptyString => true
  | String c s' => negb (Ascii.eqb c "010") && single_line s'
  end.

Definition line_feed : string := String "010" "".

(** ** The world: audio device, calls made on it, and the log *)

(** The calls the facade makes on the platform: the acquisition of the
    endpoint and the methods of [IAudioEndpointVolume]. *)
Inductive call : Type :=
| Activate
| GetMasterVolumeLevelScalar_
| GetMasterVolumeLevel_
| GetMute_
| SetMasterVolumeLevelScalar_ (x : float)
| SetMute_ (v : Z).

Definition is_read (c : call) : bool :=
  match c with
  | GetMasterVolumeLevelScalar_ | GetMasterVolumeLevel_ | GetMute_ => true
  | _ => false
  end.

Definition is_write (c : call) : bool :=
  match c with
  | SetMasterVolumeLevelScalar_ _ | SetMute_ _ => true
  | _ => false
  end.

(** One call and the exception it raised, if any. *)
Record event := mk_event { ev_call : call; ev_raised : option exn }.

Inductive level := INFO | ERROR.

Record World (S : Type) : Type := mk_world {
  device : S;
  calls : list event;
  log : list (level * string)
}.
Arguments mk_world {S} _ _ _.
Arguments device {S} _.
Arguments calls {S} _.
Arguments log {S} _.

(** Computations that read and change the world and may raise. What was
    done before an exception stays done. *)
Definition M (S A : Type) : Type := World S -> outcome A * World S.

Definition ret {S A} (a : A) : M S A := fun w => (Ok a, w).

Definition raise {S A} (e : exn) : M S A := fun w => (Raise e, w).

Definition bind {S A B} (m : M S A) (k : A -> M S B) : M S B :=
  fun w => match m w with
           | (Ok a, w') => k a w'
           | (Raise e, w') => (Raise e, w')
           end.

(** [try: body except Exception as e: handler e]. *)
Definition try_except {S A} (body : M S A) (handler : exn -> M S A) : M S A :=
  fun w => match body w with
           | (Ok a, w') => (Ok a, w')
           | (Raise e, w') => handler e w'
           end.

Declare Scope py_scope.
Delimit Scope py_scope with py.
Notation "x <- m ;; k" := (bind m (fun x => k))
  (at level 61, m at next level, right associativity) : py_scope.
Notation "m ;; k" := (bind m (fun _ => k))
  (at level 61, right associativity) : py_scope.

Definition logger_info {S} (msg : string) : M S unit :=
  fun w => (Ok tt, mk_world (device w) (calls w) (log w ++ [(INFO, msg)])).

Definition logger_error {S} (msg : string) : M S unit :=
  fun w => (Ok tt, mk_world (device w) (calls w) (log w ++ [(ERROR, msg)])).

(** A call on the device: it runs on the device state and is recorded
    with the exception it raised. *)
Definition invoke {S A} (c : call) (f : S -> outcome A * S) : M S A :=
  fun w => let (r, d) := f (device w) in
           (r, mk_world d (calls w ++ [mk_event c (raised r)]) (log w)).

(** The control interface of an audio endpoint over a device state [S]:
    each method returns or raises, and leaves a device state. *)
Record Endpoint (S : Type) : Type := mk_endpoint {
  GetMasterVolumeLevelScalar : S -> outcome float * S;
  GetMasterVolumeLevel : S -> outcome float * S;
  GetMute : S -> outcome Z * S;
  SetMasterVolumeLevelScalar : float -> S -> outcome unit * S;
  SetMute : Z -> S -> outcome unit * S
}.
Arguments GetMasterVolumeLevelScalar {S} _ _.
Arguments GetMasterVolumeLevel {S} _ _.
Arguments GetMute {S} _ _.
Arguments SetMasterVolumeLevelScalar {S} _ _ _.
Arguments SetMute {S} _ _ _.

(** The dictionary every handler of the facade returns. *)
Definition error_result (msg : string) : dict :=
  [("error", VStr msg); ("status", VStr "error")].

Definition is_error (d : dict) : bool :=
  match dict_get d "status" with
  | Some v => value_eq_str v "error"
  | None => false
  end.

(** ** class VolumeController *)

Module VolumeController.
Section Methods.

Variable S : Type.

Local Open Scope py_scope.

(** The instance: its one attribute, [None] or the endpoint interface. *)
Record t : Type := mk { _volume : option (Endpoint S) }.

(** [if not self._volume: raise RuntimeError(...)]. *)
Definition interface (self : t) : M S (Endpoint S) :=
  match _volume self with
  | None => raise (RuntimeError "Audio interface not initialized")
  | Some ep => ret ep
  end.

(** [_initialize_audio]: the import of pycaw and comtypes and the calls
    [GetSpeakers], [Activate], [QueryInterface] are one acquisition
    [acquire] of the platform, which returns the interface or raises.
    Both handlers log and raise again; the attribute is assigned only
    when the acquisition returned. The instance after the call is
    returned next to the outcome. *)
Definition _initialize_audio (acquire : S -> outcome (Endpoint S) * S)
    (self : t) (w : World S) : outcome unit * t * World S :=
  match invoke Activate acquire w with
  | (Ok ep, w1) =>
      let (r, w2) := logger_info "Audio interface initialized successfully" w1 in
      (r, mk (Some ep), w2)
  | (Raise e, w1) =>
      let msg := if isinstance e "ImportError"
                 then "Required libraries not installed: " ++ exn_str e
                 else "Failed to initialize audio interface: " ++ exn_str e in
      let (_, w2) := logger_error msg w1 in
      (Raise e, self, w2)
  end.

Definition __init__ (acquire : S -> outcome (Endpoint S) * S)
    (w : World S) : outcome unit * t * World S :=
  let self := mk None in
  _initialize_audio acquire self w.

Definition get_volume (self : t) : M S dict :=
  try_except
    (ep <- interface self ;;
     volume_scalar <- invoke GetMasterVolumeLevelScalar_ (GetMasterVolumeLevelScalar ep) ;;
     volume_db <- invoke GetMasterVolumeLevel_ (GetMasterVolumeLevel ep) ;;
     is_muted <- invoke GetMute_ (GetMute ep) ;;
     let volume_percentage := PyFloat.round (volume_scalar * 100)%float 1 in
     ret [("volume_percentage", VFloat volume_percentage);
          ("volume_scalar", VFloat volume_scalar);
          ("volume_db", VFloat (PyFloat.round volume_db 2));
          ("is_muted", VBool (truthy is_muted));
          ("status", VStr "success")])
    (fun e =>
       logger_error ("Failed to get volume: " ++ exn_str e) ;;
       ret (error_result (exn_str e))).

Definition set_volume (self : t) (percentage : float) : M S dict :=
  try_except
    (ep <- interface self ;;
     (if (0 <=? percentage)%float && (percentage <=? 100)%float
      then ret tt
      else raise (ValueError "Volume percentage must be between 0 and 100")) ;;
     let volume_scalar := (percentage / 100)%float in
     invoke (SetMasterVolumeLevelScalar_ volume_scalar)
            (SetMasterVolumeLevelScalar ep volume_scalar) ;;
     actual_volume <- invoke GetMasterVolumeLevelScalar_ (GetMasterVolumeLevelScalar ep) ;;
     let actual_percentage := PyFloat.round (actual_volume * 100)%float 1 in
     logger_info ("Volume set to " ++ PyFloat.repr actual_percentage ++ "%") ;;
     ret [("requested_percentage", VFloat percentage);
          ("actual_percentage", VFloat actual_percentage);
          ("volume_scalar", VFloat actual_volume);
          ("status", VStr "success")])
    (fun e =>
       logger_error ("Failed to set volume: " ++ exn_str e) ;;
       ret (error_result (exn_str e))).

Definition mute (self : t) : M S dict :=
  try_except
    (ep <- interface self ;;
     was_muted <- invoke GetMute_ (GetMute ep) ;;
     if truthy was_muted then
       ret [("message", VStr "System was already muted");
            ("was_muted", VBool true);
            ("is_muted", VBool true);
            ("status", VStr "success")]
     else
       invoke (SetMute_ 1) (SetMute ep 1) ;;
       logger_info "System muted" ;;
       ret [("message", VStr "System muted successfully");
            ("was_muted", VBool false);
            ("is_muted", VBool true);
            ("status", VStr "success")])
    (fun e =>
       logger_error ("Failed to mute: " ++ exn_str e) ;;
       ret (error_result (exn_str e))).

Definition unmute (self : t) : M S dict :=
  try_except
    (ep <- interface self ;;
     was_muted <- invoke GetMute_ (GetMute ep) ;;
     if negb (truthy was_muted) then
       ret [("message", VStr "System was already unmuted");
            ("was_muted", VBool false);
            ("is_muted", VBool false);
            ("status", VStr "success")]
     else
       invoke (SetMute_ 0) (SetMute ep 0) ;;
       logger_info "System unmuted" ;;
       ret [("message", VStr "System unmuted successfully");
            ("was_muted", VBool true);
            ("is_muted", VBool false);
            ("status", VStr "success")])
    (fun e =>
       logger_error ("Failed to unmute: " ++ exn_str e) ;;
       ret (error_result (exn_str e))).

Definition toggle_mute (self : t) : M S dict :=
  try_except
    (ep <- interface self ;;
     current_mute <- invoke GetMute_ (GetMute ep) ;;
     let new_mute := negb (truthy current_mute) in
     let arg := if new_mute then 1 else 0 in
     invoke (SetMute_ arg) (SetMute ep arg) ;;
     let action := if new_mute then "muted" else "unmuted" in
     logger_info ("System " ++ action ++ " (toggled)") ;;
     ret [("message", VStr ("System " ++ action ++ " successfully"));
          ("was_muted", VBool (truthy current_mute));
          ("is_muted", VBool new_mute);
          ("action", VStr action);
          ("status", VStr "success")])
    (fun e =>
       logger_error ("Failed to toggle mute: " ++ exn_str e) ;;
       ret (error_result (exn_str e))).

End Methods.

Arguments mk {S} _.
Arguments _volume {S} _.
Arguments interface {S} _ _.
Arguments _initialize_audio {S} _ _ _.
Arguments __init__ {S} _ _.
Arguments get_volume {S} _ _.
Arguments set_volume {S} _ _ _.
Arguments mute {S} _ _.
Arguments unmute {S} _ _.
Arguments toggle_mute {S} _ _.

End VolumeController.

(** ** The tool functions *)

(** The markers that open the rendered texts, as the bytes the source file
    holds between the quote and the first space. *)
Definition speaker_mark : string := utf8 [196; 159; 197; 184; 226; 128; 157; 197; 160]%N.
Definition cross_mark : string := utf8 [195; 162; 197; 146]%N.
Definition mute_mark : string := utf8 [195; 175; 194; 191; 194; 189]%N.
Definition muted_speaker_mark : string :=
  utf8 [196; 159; 197; 184; 226; 128; 157; 226; 128; 161]%N.

Section Tools.

Variable S : Type.

(** The module-level instance the tools share. *)
Variable volume_controller : VolumeController.t S.

Local Open Scope py_scope.

(** [d[k]], raising [KeyError] on a missing key. *)
Definition getitem (d : dict) (k : string) : M S value :=
  match dict_get d k with
  | Some v => ret v
  | None => raise (KeyError k)
  end.

Definition render_error (result : dict) : M S string :=
  e <- getitem result "error" ;;
  ret (cross_mark ++ " Error: " ++ format e).

Definition get_volume : M S string :=
  result <- VolumeController.get_volume volume_controller ;;
  status <- getitem result "status" ;;
  if value_eq_str status "success" then
    p <- getitem result "volume_percentage" ;;
    m <- getitem result "is_muted" ;;
    db <- getitem result "volume_db" ;;
    ret (speaker_mark ++ " Volume: " ++ format p ++ "% | Muted: "
           ++ (if value_truthy m then "Yes" else "No")
           ++ " | dB: " ++ format db)
  else render_error result.

Definition set_volume (percentage : float) : M S string :=
  result <- VolumeController.set_volume volume_controller percentage ;;
  status <- getitem result "status" ;;
  if value_eq_str status "success" then
    a <- getitem result "actual_percentage" ;;
    r <- getitem result "requested_percentage" ;;
    ret (speaker_mark ++ " Volume set to " ++ format a
           ++ "% (requested: " ++ format r ++ "%)")
  else render_error result.

Definition mute : M S string :=
  result <- VolumeController.mute volume_controller ;;
  status <- getitem result "status" ;;
  if value_eq_str status "success" then
    m <- getitem result "message" ;;
    ret (mute_mark ++ " " ++ format m)
  else render_error result.

Definition unmute : M S string :=
  result <- VolumeController.unmute volume_controller ;;
  status <- getitem result "status" ;;
  if value_eq_str status "success" then
    m <- getitem result "message" ;;
    ret (muted_speaker_mark ++ " " ++ format m)
  else render_error result.

Definition toggle_mute : M S string :=
  result <- VolumeController.toggle_mute volume_controller ;;
  status <- getitem result "status" ;;
  if value_eq_str status "success" then
    m <- getitem result "message" ;;
    ret (muted_speaker_mark ++ " " ++ format m)
  else render_error result.

End Tools.

Arguments getitem {S} _ _ _.
Arguments render_error {S} _ _.
Arguments get_volume {S} _ _.
Arguments set_volume {S} _ _ _.
Arguments mute {S} _ _.
Arguments unmute {S} _ _.
Arguments toggle_mute {S} _ _.

(** ** The five operations, by name *)

Inductive operation : Type :=
| Query
| Set_ (percentage : float)
| Mute
| Unmute
| ToggleMute.

(** The facade method of an operation. *)
Definition method {S} (op : operation) (self : VolumeController.t S) : M S dict :=
  match op with
  | Query => VolumeController.get_volume self
  | Set_ p => VolumeController.set_volume self p
  | Mute => VolumeController.mute self
  | Unmute => VolumeController.unmute self
  | ToggleMute => VolumeController.toggle_mute self
  end.

(** The tool of an operation. *)
Definition tool {S} (op : operation) (vc : VolumeController.t S) : M S string :=
  match op with
  | Query => get_volume vc
  | Set_ p => set_volume vc p
  | Mute => mute vc
  | Unmute => unmute vc
  | ToggleMute => toggle_mute vc
  end.

(** ** A fake endpoint *)

(** The state of a fake device: the scalar volume, the level in decibels
    and the mute flag as the integer last written. *)
Record FakeDevice : Type := mk_fake {
  fake_scalar : float;
  fake_db : float;
  fake_mute : Z
}.

(** A fault plan says which calls raise, and what. *)
Definition no_fault : call -> option exn := fun _ => None.

Definition all_fault (e : exn) : call -> option exn := fun _ => Some e.

Definition write_fault (e : exn) : call -> option exn :=
  fun c => if is_write c then Some e else None.

Definition fake_call {A} (fault : call -> option exn) (c : call)
    (f : FakeDevice -> A * FakeDevice) (d : FakeDevice) : outcome A * FakeDevice :=
  match fault c with
  | Some e => (Raise e, d)
  | None => let (a, d') := f d in (Ok a, d')
  end.

(** A fake endpoint under a fault plan: a write stores exactly the value
    written, a read returns exactly the value stored, and a call that
    raises changes nothing. *)
Definition faulty_endpoint (fault : call -> option exn) : Endpoint FakeDevice := {|
  GetMasterVolumeLevelScalar :=
    fake_call fault GetMasterVolumeLevelScalar_ (fun d => (fake_scalar d, d));
  GetMasterVolumeLevel :=
    fake_call fault GetMasterVolumeLevel_ (fun d => (fake_db d, d));
  GetMute :=
    fake_call fault GetMute_ (fun d => (fake_mute d, d));
  SetMasterVolumeLevelScalar := fun x =>
    fake_call fault (SetMasterVolumeLevelScalar_ x)
      (fun d => (tt, mk_fake x (fake_db d) (fake_mute d)));
  SetMute := fun v =>
    fake_call fault (SetMute_ v)
      (fun d => (tt, mk_fake (fake_scalar d) (fake_db d) v))
|}.

(** The fake endpoint that never raises. *)
Definition fake_endpoint : Endpoint FakeDevice := faulty_endpoint no_fault.

Definition fake_controller : VolumeController.t FakeDevice :=
  VolumeController.mk (Some fake_endpoint).

Definition faulty_controller (fault : call -> option exn) : VolumeController.t FakeDevice :=
  VolumeController.mk (Some (faulty_endpoint fault)).

Definition fresh_world (d : FakeDevice) : World FakeDevice := mk_world d [] [].

(** ** What [toggle_mute] writes and reports *)

(** The integer written after reading [m]: [1 if not m else 0]. *)
Definition negated (m : Z) : Z := if negb (truthy m) then 1 else 0.

(** The action reported for the new flag. *)
Definition action_of (muted : bool) : string :=
  if muted then "muted" else "unmuted".

(** ** Properties of an endpoint *)

(** The reads leave the device as it was, whether they return or raise. *)
Definition reads_preserve {S} (ep : Endpoint S) : Prop :=
  (forall d, snd (GetMasterVolumeLevelScalar ep d) = d) /\
  (forall d, snd (GetMasterVolumeLevel ep d) = d) /\
  (forall d, snd (GetMute ep d) = d).

(** A write that raises leaves the device as it was. *)
Definition failed_write_preserves {S} (ep : Endpoint S) : Prop :=
  (forall x d e d', SetMasterVolumeLevelScalar ep x d = (Raise e, d') -> d' = d) /\
  (forall v d e d', SetMute ep v d = (Raise e, d') -> d' = d).

(** Exact mute semantics, with [flag] reading the stored flag off the
    device: [GetMute] returns it and [SetMute] stores what it is given. *)
Definition exact_mute {S} (ep : Endpoint S) (flag : S -> Z) : Prop :=
  (forall d, GetMute ep d = (Ok (flag d), d)) /\
  (forall v d, exists d', SetMute ep v d = (Ok tt, d') /\ flag d' = v).

(** Exact scalar semantics: a write returns and the next read returns the
    value written. *)
Definition exact_scalar {S} (ep : Endpoint S) : Prop :=
  forall x d, exists d',
    SetMasterVolumeLevelScalar ep x d = (Ok tt, d') /\
    GetMasterVolumeLevelScalar ep d' = (Ok x, d').

(** ** Atomicity on error *)

(** The calls [evs] are reads followed by at most one write of the mute
    flag, which is then the last call. *)
Definition write_last (evs : list event) : Prop :=
  exists reads writes,
    evs = (reads ++ writes)%list /\
    Forall (fun ev => is_read (ev_call ev) = true) reads /\
    (writes = [] \/ exists v r, writes = [mk_event (SetMute_ v) r]).

(** No write among [evs] returned: each one raised. *)
Definition no_write_returned (evs : list event) : Prop :=
  forall ev, In ev evs -> is_write (ev_call ev) = true -> ev_raised ev <> None.

(** A method is atomic on error when the write is its last call and, if
    it returns an error result, no write returned; the device is then as
    it was, provided the reads of the endpoint and its failed writes leave
    the device alone. *)
Definition atomic_on_error {S} (m : VolumeController.t S -> M S dict) : Prop :=
  forall (self : VolumeController.t S) (w : World S),
  exists (d : dict) (w' : World S) (evs : list event),
    m self w = (Ok d, w') /\
    calls w' = (calls w ++ evs)%list /\
    write_last evs /\
    (is_error d = true ->
       no_write_returned evs /\
       ((forall ep, VolumeController._volume self = Some ep ->
                    reads_preserve ep /\ failed_write_preserves ep) ->
        device w' = device w)).

(** ** Further vocabulary for the calls and the log *)

(** The reads raise [e], the writes return. *)
Definition read_fault (e : exn) : call -> option exn :=
  fun c => if is_read c then Some e else None.

(** The calls that concern the scalar volume, and those that concern the
    mute flag. *)
Definition is_volume_call (c : call) : bool :=
  match c with
  | GetMasterVolumeLevelScalar_ | SetMasterVolumeLevelScalar_ _ => true
  | _ => false
  end.

Definition is_mute_call (c : call) : bool :=
  match c with
  | GetMute_ | SetMute_ _ => true
  | _ => false
  end.

(** What the handler of each method writes before the message. *)
Definition failure_prefix (op : operation) : string :=
  match op with
  | Query => "Failed to get volume: "
  | Set_ _ => "Failed to set volume: "
  | Mute => "Failed to mute: "
  | Unmute => "Failed to unmute: "
  | ToggleMute => "Failed to toggle mute: "
  end.

(** The percentage passes the test [0 <= percentage <= 100]. *)
Definition in_range (percentage : float) : bool :=
  (0 <=? percentage)%float && (percentage <=? 100)%float.

(** The level and mute reads of an endpoint return and leave the device
    alone. *)
Definition steady_reads {S} (ep : Endpoint S) : Prop :=
  forall d, exists db m,
    GetMasterVolumeLevel ep d = (Ok db, d) /\
    GetMute ep d = (Ok m, d).

(** The calls within the scope of an operation: the reads for the query,
    the scalar volume for the set, the mute flag for the other three. *)
Definition in_scope (op : operation) (c : call) : bool :=
  match op with
  | Query => is_read c
  | Set_ _ => is_volume_call c
  | Mute | Unmute | ToggleMute => is_mute_call c
  end.

(** Every call of [evs] but the last returned. *)
Definition only_last_may_raise (evs : list event) : Prop :=
  match rev evs with
  | [] => True
  | _ :: earlier => Forall (fun ev => ev_raised ev = None) earlier
  end.

(** The number of writes among [evs]. *)
Definition writes (evs : list event) : nat :=
  List.length (filter (fun ev => is_write (ev_call ev)) evs).

(** [s.startswith(pre)]. *)
Fixpoint starts_with (s pre : string) {struct pre} : bool :=
  match pre with
  | EmptyString => true
  | String c pre' =>
      match s with
      | EmptyString => false
      | String c' s' => Ascii.eqb c c' && starts_with s' pre'
      end
  end.

(** * Properties *)

(** ** The float builtins on known values *)

(** [round] works on the exact binary value: 2.675 lies below the tie and
    goes down, 0.125 is a tie and goes to the even digit. *)
Example round_below_tie : PyFloat.round 2.675 2 = 2.67%float.
Proof. vm_compute. reflexivity. Qed.

Example round_tie_to_even : PyFloat.round 0.125 2 = 0.12%float.
Proof. vm_compute. reflexivity. Qed.

Example round_negative : PyFloat.round (-12.345) 2 = (-12.35)%float.
Proof. vm_compute. reflexivity. Qed.

Example round_scaled_scalar : PyFloat.round (0.57 * 100) 1 = 57%float.
Proof. vm_compute. reflexivity. Qed.

Example repr_shortest : PyFloat.repr (0.57 * 100) = "56.99999999999999".
Proof. vm_compute. reflexivity. Qed.

Example repr_integral : PyFloat.repr 57 = "57.0".
Proof. vm_compute. reflexivity. Qed.

Example repr_exponent : PyFloat.repr 1e16 = "1e+16" /\ PyFloat.repr 0.00001 = "1e-05".
Proof. split; vm_compute; reflexivity. Qed.

(** ** Running the monad *)

Ltac run :=
  cbv beta iota delta
    [VolumeController.get_volume VolumeController.set_volume
     VolumeController.mute VolumeController.unmute VolumeController.toggle_mute
     VolumeController.interface method
     try_except bind ret raise invoke logger_info logger_error error_result raised].

(** Case analysis on the next endpoint call of the goal. *)
Ltac case_call t H :=
  let a := fresh "a" in
  let e := fresh "e" in
  let d := fresh "d" in
  destruct t as [[a|e] d] eqn:H.

Ltac next_call :=
  match goal with
  | |- context [GetMasterVolumeLevelScalar ?ep ?d] =>
      let H := fresh "Hscalar" in case_call (GetMasterVolumeLevelScalar ep d) H
  | |- context [GetMasterVolumeLevel ?ep ?d] =>
      let H := fresh "Hlevel" in case_call (GetMasterVolumeLevel ep d) H
  | |- context [GetMute ?ep ?d] =>
      let H := fresh "Hmute" in case_call (GetMute ep d) H
  | |- context [SetMasterVolumeLevelScalar ?ep ?x ?d] =>
      let H := fresh "Hsetv" in case_call (SetMasterVolumeLevelScalar ep x d) H
  | |- context [SetMute ?ep ?v ?d] =>
      let H := fresh "Hsetm" in case_call (SetMute ep v d) H
  end; cbn [device calls log fst snd].

(** An event list in which every raised exception is [e]. *)
Lemma raised_in_events (evs : list event) (d : dict) :
  Forall (fun ev => forall e, ev_raised ev = Some e -> d = error_result (exn_str e)) evs ->
  forall c e, In (mk_event c (Some e)) evs -> d = error_result (exn_str e).
Proof.
  intros H c e Hin.
  rewrite Forall_forall in H.
  exact (H _ Hin e eq_refl).
Qed.

Ltac next_test :=
  match goal with
  | |- context [if ?b then _ else _] => destruct b eqn:?
  end; cbn [device calls log fst snd].

Ltac explore := repeat first [next_call | next_test].

(** ** Exceptions stay inside the facade *)

Ltac catch_case :=
  do 3 eexists; split; [reflexivity|]; cbn [calls]; split;
  [ first [ rewrite <- ?app_assoc; reflexivity | symmetry; apply app_nil_r ]
  | apply raised_in_events; repeat constructor; cbn;
    try discriminate; intros ? [= <-]; reflexivity ].

(** C1. Whatever the endpoint does, each of the five methods returns a
    dictionary and raises nothing; and when a call on the endpoint raised
    an exception during the method, the dictionary returned is the error
    result with the message of that exception. *)
Theorem facade_contains_exceptions :
  forall (S : Type) (op : operation) (self : VolumeController.t S) (w : World S),
  exists (d : dict) (w' : World S) (evs : list event),
    method op self w = (Ok d, w') /\
    calls w' = (calls w ++ evs)%list /\
    forall c e, In (mk_event c (Some e)) evs -> d = error_result (exn_str e).
Proof.
  intros S op self w.
  destruct op; run;
    (destruct (VolumeController._volume self) as [ep|]; cbn [device calls log];
     [ explore; catch_case | catch_case ]).
Qed.

Lemma facade_contains_exceptions_witness :
  exists w' : World FakeDevice,
    method Query (faulty_controller (all_fault (mk_exn ["OSError"] "device unplugged")))
      (fresh_world (mk_fake 0.5 (-10) 0))
      = (Ok (error_result "device unplugged"), w').
Proof.
  destruct (facade_contains_exceptions FakeDevice Query
              (faulty_controller (all_fault (mk_exn ["OSError"] "device unplugged")))
              (fresh_world (mk_fake 0.5 (-10) 0)))
    as (d & w' & evs & Hrun & Hcalls & Hexn).
  exists w'. rewrite Hrun. do 2 f_equal.
  apply (Hexn GetMasterVolumeLevelScalar_ (mk_exn ["OSError"] "device unplugged")).
  vm_compute in Hrun. injection Hrun as _ Hw. subst w'.
  cbn in Hcalls. subst evs. left. reflexivity.
Defined.

(** ** The range check of [set_volume] *)

Lemma SFcompare_Lt_swap (x y : spec_float) :
  SFcompare x y = Some Lt -> SFcompare y x = Some Gt.
Proof.
  destruct x as [s1|s1| |s1 m1 e1], y as [s2|s2| |s2 m2 e2]; cbn;
    try discriminate;
    try (destruct s1; try destruct s2; cbn; congruence).
  destruct s1, s2; try congruence;
    rewrite (Z.compare_antisym e1 e2);
    destruct (e1 ?= e2)%Z; cbn; try congruence;
    pose proof (Pos.compare_cont_antisym m1 m2 Eq) as A; cbn in A; rewrite <- A;
    destruct (Pos.compare_cont Eq m1 m2); cbn; congruence.
Qed.

Lemma ltb_not_leb (x y : float) :
  (x <? y)%float = true -> (y <=? x)%float = false.
Proof.
  rewrite ltb_spec, leb_spec. unfold SFltb, SFleb.
  destruct (SFcompare (Prim2SF x) (Prim2SF y)) as [[]|] eqn:H; try discriminate.
  intros _. now rewrite (SFcompare_Lt_swap _ _ H).
Qed.

(** A percentage below 0 or above 100 fails the test [0 <= p <= 100]. *)
Lemma out_of_range (p : float) :
  (p <? 0)%float = true \/ (100 <? p)%float = true ->
  ((0 <=? p)%float && (p <=? 100)%float) = false.
Proof.
  intros [H|H]; rewrite (ltb_not_leb _ _ H); [reflexivity | apply andb_false_r].
Qed.

(** C2. On an initialised facade, [set_volume p] with [p < 0] or
    [p > 100] returns the error result with the range message and makes
    no call on the endpoint, so the device is as it was. *)
Theorem set_volume_rejects_out_of_range :
  forall (S : Type) (self : VolumeController.t S) (ep : Endpoint S)
         (p : float) (w : World S),
    VolumeController._volume self = Some ep ->
    (p <? 0)%float = true \/ (100 <? p)%float = true ->
    exists w' : World S,
      VolumeController.set_volume self p w =
        (Ok (error_result "Volume percentage must be between 0 and 100"), w') /\
      calls w' = calls w /\
      device w' = device w.
Proof.
  intros S self ep p w Hep Hp.
  run. rewrite Hep, (out_of_range p Hp). cbn.
  eexists. repeat split.
Qed.

Lemma set_volume_rejects_out_of_range_witness :
  exists w' : World FakeDevice,
    VolumeController.set_volume fake_controller 150 (fresh_world (mk_fake 0.5 (-10) 0)) =
      (Ok (error_result "Volume percentage must be between 0 and 100"), w') /\
    calls w' = [] /\
    device w' = mk_fake 0.5 (-10) 0.
Proof.
  apply (set_volume_rejects_out_of_range FakeDevice fake_controller fake_endpoint 150
           (fresh_world (mk_fake 0.5 (-10) 0))).
  - reflexivity.
  - right. vm_compute. reflexivity.
Defined.

(** ** Mute and unmute *)

(** C3. On an initialised facade whose endpoint reads the mute flag [m]:
    [mute] on a muted endpoint returns the "already muted" success with
    no call but the read; on an unmuted one it writes 1 and returns the
    "muted" success. [unmute] mirrors it: no call but the read when
    already unmuted, otherwise it writes 0. *)
Theorem mute_unmute_idempotent :
  forall (S : Type) (self : VolumeController.t S) (ep : Endpoint S)
         (w : World S) (m : Z) (d1 : S),
    VolumeController._volume self = Some ep ->
    GetMute ep (device w) = (Ok m, d1) ->
    (truthy m = true ->
       exists w', VolumeController.mute self w =
         (Ok [("message", VStr "System was already muted");
              ("was_muted", VBool true); ("is_muted", VBool true);
              ("status", VStr "success")], w') /\
       calls w' = (calls w ++ [mk_event GetMute_ None])%list /\
       device w' = d1) /\
    (truthy m = false -> forall d2, SetMute ep 1 d1 = (Ok tt, d2) ->
       exists w', VolumeController.mute self w =
         (Ok [("message", VStr "System muted successfully");
              ("was_muted", VBool false); ("is_muted", VBool true);
              ("status", VStr "success")], w') /\
       calls w' = (calls w ++ [mk_event GetMute_ None; mk_event (SetMute_ 1) None])%list /\
       device w' = d2) /\
    (truthy m = false ->
       exists w', VolumeController.unmute self w =
         (Ok [("message", VStr "System was already unmuted");
              ("was_muted", VBool false); ("is_muted", VBool false);
              ("status", VStr "success")], w') /\
       calls w' = (calls w ++ [mk_event GetMute_ None])%list /\
       device w' = d1) /\
    (truthy m = true -> forall d2, SetMute ep 0 d1 = (Ok tt, d2) ->
       exists w', VolumeController.unmute self w =
         (Ok [("message", VStr "System unmuted successfully");
              ("was_muted", VBool true); ("is_muted", VBool false);
              ("status", VStr "success")], w') /\
       calls w' = (calls w ++ [mk_event GetMute_ None; mk_event (SetMute_ 0) None])%list /\
       device w' = d2).
Proof.
  intros S self ep w m d1 Hep Hget.
  repeat split; intros Hm; try intros d2 Hset;
    run; rewrite Hep; cbn [device calls log]; rewrite Hget, Hm;
    cbn [device calls log negb]; try rewrite Hset;
    eexists; cbn [device calls log]; rewrite <- ?app_assoc; repeat split.
Qed.

Lemma mute_unmute_idempotent_witness :
  (exists w', VolumeController.mute fake_controller (fresh_world (mk_fake 0.5 (-10) 1)) =
     (Ok [("message", VStr "System was already muted");
          ("was_muted", VBool true); ("is_muted", VBool true);
          ("status", VStr "success")], w') /\
     calls w' = [mk_event GetMute_ None] /\
     device w' = mk_fake 0.5 (-10) 1) /\
  (exists w', VolumeController.unmute fake_controller (fresh_world (mk_fake 0.5 (-10) 1)) =
     (Ok [("message", VStr "System unmuted successfully");
          ("was_muted", VBool true); ("is_muted", VBool false);
          ("status", VStr "success")], w') /\
     calls w' = [mk_event GetMute_ None; mk_event (SetMute_ 0) None] /\
     device w' = mk_fake 0.5 (-10) 0).
Proof.
  destruct (mute_unmute_idempotent FakeDevice fake_controller fake_endpoint
              (fresh_world (mk_fake 0.5 (-10) 1)) 1 (mk_fake 0.5 (-10) 1)
              eq_refl eq_refl) as (Hm & _ & _ & Hu).
  split.
  - exact (Hm eq_refl).
  - exact (Hu eq_refl (mk_fake 0.5 (-10) 0) eq_refl).
Defined.

(** ** Toggle *)

Section Toggle.

Variable S : Type.
Variable self : VolumeController.t S.
Variable ep : Endpoint S.
Hypothesis Hep : VolumeController._volume self = Some ep.

(** Whatever the flag read, the write follows the read. *)
Lemma toggle_mute_writes (w : World S) (m : Z) (d1 : S) :
  GetMute ep (device w) = (Ok m, d1) ->
  exists d w' r,
    VolumeController.toggle_mute self w = (Ok d, w') /\
    calls w' = (calls w ++ [mk_event GetMute_ None; mk_event (SetMute_ (negated m)) r])%list.
Proof.
  intros Hget. run. rewrite Hep. cbn [device calls log]. rewrite Hget.
  cbn [device calls log]. fold (negated m).
  case_call (SetMute ep (negated m) d1) Hset;
    do 3 eexists; cbn [device calls log]; rewrite <- ?app_assoc; split; reflexivity.
Qed.

Lemma toggle_mute_success (w : World S) (m : Z) (d1 d2 : S) :
  GetMute ep (device w) = (Ok m, d1) ->
  SetMute ep (negated m) d1 = (Ok tt, d2) ->
  exists w',
    VolumeController.toggle_mute self w =
      (Ok [("message", VStr ("System " ++ action_of (negb (truthy m)) ++ " successfully"));
           ("was_muted", VBool (truthy m));
           ("is_muted", VBool (negb (truthy m)));
           ("action", VStr (action_of (negb (truthy m))));
           ("status", VStr "success")], w') /\
    device w' = d2.
Proof.
  intros Hget Hset. run. rewrite Hep. cbn [device calls log]. rewrite Hget.
  cbn [device calls log]. fold (negated m). rewrite Hset.
  eexists. split; reflexivity.
Qed.

Lemma truthy_negated (m : Z) : truthy (negated m) = negb (truthy m).
Proof. unfold negated. now destruct (truthy m). Qed.

(** C4. [toggle_mute] reads the flag and always writes its negation; when
    the write returns, the result reports the flag read, its negation and
    the matching action. On an endpoint with exact mute semantics two
    calls in a row leave the flag with its first truth value and report
    opposite actions. *)
Theorem toggle_mute_always_writes :
  (forall (w : World S) (m : Z) (d1 : S),
     GetMute ep (device w) = (Ok m, d1) ->
     (exists d w' r,
        VolumeController.toggle_mute self w = (Ok d, w') /\
        calls w' = (calls w ++ [mk_event GetMute_ None;
                                mk_event (SetMute_ (negated m)) r])%list) /\
     (forall d2, SetMute ep (negated m) d1 = (Ok tt, d2) ->
        exists w',
          VolumeController.toggle_mute self w =
            (Ok [("message", VStr ("System " ++ action_of (negb (truthy m)) ++ " successfully"));
                 ("was_muted", VBool (truthy m));
                 ("is_muted", VBool (negb (truthy m)));
                 ("action", VStr (action_of (negb (truthy m))));
                 ("status", VStr "success")], w') /\
          device w' = d2)) /\
  (forall (flag : S -> Z) (w : World S),
     exact_mute ep flag ->
     exists r1 w1 r2 w2,
       VolumeController.toggle_mute self w = (Ok r1, w1) /\
       VolumeController.toggle_mute self w1 = (Ok r2, w2) /\
       truthy (flag (device w2)) = truthy (flag (device w)) /\
       dict_get r1 "action" = Some (VStr (action_of (negb (truthy (flag (device w)))))) /\
       dict_get r2 "action" = Some (VStr (action_of (truthy (flag (device w)))))).
Proof.
  split.
  - intros w m d1 Hget. split.
    + exact (toggle_mute_writes w m d1 Hget).
    + intros d2 Hset. exact (toggle_mute_success w m d1 d2 Hget Hset).
  - intros flag w [Hget Hset].
    destruct (Hset (negated (flag (device w))) (device w)) as (d2 & Hset1 & Hflag1).
    destruct (toggle_mute_success w _ _ _ (Hget (device w)) Hset1) as (w1 & Hrun1 & Hdev1).
    destruct (Hset (negated (flag (device w1))) (device w1)) as (d3 & Hset2 & Hflag2).
    destruct (toggle_mute_success w1 _ _ _ (Hget (device w1)) Hset2) as (w2 & Hrun2 & Hdev2).
    do 4 eexists. split; [exact Hrun1|]. split; [exact Hrun2|].
    rewrite Hdev2, Hflag2, Hdev1, Hflag1, !truthy_negated, negb_involutive.
    repeat split.
Qed.

End Toggle.

Lemma toggle_mute_always_writes_witness :
  exists r1 w1 r2 w2,
    VolumeController.toggle_mute fake_controller (fresh_world (mk_fake 0.5 (-10) 0)) = (Ok r1, w1) /\
    VolumeController.toggle_mute fake_controller w1 = (Ok r2, w2) /\
    truthy (fake_mute (device w2)) = false /\
    dict_get r1 "action" = Some (VStr "muted") /\
    dict_get r2 "action" = Some (VStr "unmuted").
Proof.
  destruct (toggle_mute_always_writes FakeDevice fake_controller fake_endpoint eq_refl)
    as [_ Htwice].
  apply (Htwice fake_mute (fresh_world (mk_fake 0.5 (-10) 0))).
  split.
  - intros d. reflexivity.
  - intros v d. eexists. split; reflexivity.
Defined.

(** ** Setting the volume *)

(** C5, as stated, fails: on the exact fake endpoint, the percentage 0.85
    is written as the scalar 0.85 / 100, which read back and multiplied by
    100 is just above 0.85, so the actual percentage reported is 0.9 while
    [round(0.85, 1)] is 0.8. *)
Lemma set_volume_actual_differs :
  ((0 <=? 0.85)%float && (0.85 <=? 100)%float) = true /\
  exists d w',
    VolumeController.set_volume fake_controller 0.85 (fresh_world (mk_fake 0.5 (-10) 0))
      = (Ok d, w') /\
    dict_get d "actual_percentage" = Some (VFloat 0.9) /\
    PyFloat.round 0.85 1 = 0.8%float /\
    dict_get d "actual_percentage" <> Some (VFloat (PyFloat.round 0.85 1)).
Proof.
  split; [vm_compute; reflexivity|].
  do 2 eexists. split; [vm_compute; reflexivity|].
  split; [vm_compute; reflexivity|].
  split; [vm_compute; reflexivity|].
  vm_compute. discriminate.
Qed.

(** C5, amended. For [0 <= p <= 100] on an initialised facade,
    [set_volume p] writes the scalar [p / 100], reads the scalar back, and
    when both calls return it answers with the percentage asked for, the
    scalar read back times 100 rounded to one decimal, and the scalar read
    back. On an endpoint with exact scalar semantics the actual percentage
    is therefore [round((p / 100) * 100, 1)]. *)
Theorem set_volume_reports_reread_scalar :
  forall (S : Type) (self : VolumeController.t S) (ep : Endpoint S)
         (p : float) (w : World S),
    VolumeController._volume self = Some ep ->
    ((0 <=? p)%float && (p <=? 100)%float) = true ->
    (forall (d1 : S) (a : float) (d2 : S),
       SetMasterVolumeLevelScalar ep (p / 100)%float (device w) = (Ok tt, d1) ->
       GetMasterVolumeLevelScalar ep d1 = (Ok a, d2) ->
       exists w',
         VolumeController.set_volume self p w =
           (Ok [("requested_percentage", VFloat p);
                ("actual_percentage", VFloat (PyFloat.round (a * 100)%float 1));
                ("volume_scalar", VFloat a);
                ("status", VStr "success")], w') /\
         calls w' = (calls w ++ [mk_event (SetMasterVolumeLevelScalar_ (p / 100)%float) None;
                                 mk_event GetMasterVolumeLevelScalar_ None])%list /\
         device w' = d2) /\
    (exact_scalar ep ->
       exists w',
         VolumeController.set_volume self p w =
           (Ok [("requested_percentage", VFloat p);
                ("actual_percentage", VFloat (PyFloat.round ((p / 100) * 100)%float 1));
                ("volume_scalar", VFloat (p / 100)%float);
                ("status", VStr "success")], w')).
Proof.
  intros S self ep p w Hep Hp.
  assert (Hgen : forall d1 a d2,
       SetMasterVolumeLevelScalar ep (p / 100)%float (device w) = (Ok tt, d1) ->
       GetMasterVolumeLevelScalar ep d1 = (Ok a, d2) ->
       exists w',
         VolumeController.set_volume self p w =
           (Ok [("requested_percentage", VFloat p);
                ("actual_percentage", VFloat (PyFloat.round (a * 100)%float 1));
                ("volume_scalar", VFloat a);
                ("status", VStr "success")], w') /\
         calls w' = (calls w ++ [mk_event (SetMasterVolumeLevelScalar_ (p / 100)%float) None;
                                 mk_event GetMasterVolumeLevelScalar_ None])%list /\
         device w' = d2).
  { intros d1 a d2 Hset Hget. run. rewrite Hep, Hp. cbn [device calls log].
    rewrite Hset. cbn [device calls log]. rewrite Hget.
    eexists. cbn [device calls log]. rewrite <- ?app_assoc. repeat split. }
  split; [exact Hgen|].
  intros Hexact. destruct (Hexact (p / 100)%float (device w)) as (d1 & Hset & Hget).
  destruct (Hgen d1 _ d1 Hset Hget) as (w' & Hrun & _).
  exists w'. exact Hrun.
Qed.

Lemma fake_exact_scalar : exact_scalar fake_endpoint.
Proof. intros x d. eexists. split; reflexivity. Qed.

Lemma set_volume_reports_reread_scalar_witness :
  exists w',
    VolumeController.set_volume fake_controller 57 (fresh_world (mk_fake 0.5 (-10) 0)) =
      (Ok [("requested_percentage", VFloat 57);
           ("actual_percentage", VFloat (PyFloat.round ((57 / 100) * 100)%float 1));
           ("volume_scalar", VFloat (57 / 100)%float);
           ("status", VStr "success")], w').
Proof.
  refine (proj2 (set_volume_reports_reread_scalar FakeDevice fake_controller fake_endpoint 57
                   (fresh_world (mk_fake 0.5 (-10) 0)) eq_refl _) _).
  - vm_compute. reflexivity.
  - exact fake_exact_scalar.
Defined.

(** ** Reading the volume *)

(** C6. On an initialised facade whose three reads return, [get_volume]
    answers with the scalar times 100 rounded to one decimal, the scalar
    itself, the level rounded to two decimals and the truth value of the
    flag, having made the three reads and nothing else. On the fake
    endpoint at scalar 0.57, level -12.345 and flag 0 that is 57.0, 0.57,
    -12.35 and false. *)
Theorem get_volume_reads_and_rounds :
  (forall (S : Type) (self : VolumeController.t S) (ep : Endpoint S) (w : World S)
          (s : float) (d1 : S) (db : float) (d2 : S) (m : Z) (d3 : S),
     VolumeController._volume self = Some ep ->
     GetMasterVolumeLevelScalar ep (device w) = (Ok s, d1) ->
     GetMasterVolumeLevel ep d1 = (Ok db, d2) ->
     GetMute ep d2 = (Ok m, d3) ->
     exists w',
       VolumeController.get_volume self w =
         (Ok [("volume_percentage", VFloat (PyFloat.round (s * 100)%float 1));
              ("volume_scalar", VFloat s);
              ("volume_db", VFloat (PyFloat.round db 2));
              ("is_muted", VBool (truthy m));
              ("status", VStr "success")], w') /\
       calls w' = (calls w ++ [mk_event GetMasterVolumeLevelScalar_ None;
                               mk_event GetMasterVolumeLevel_ None;
                               mk_event GetMute_ None])%list /\
       device w' = d3) /\
  (exists w',
     VolumeController.get_volume fake_controller (fresh_world (mk_fake 0.57 (-12.345) 0)) =
       (Ok [("volume_percentage", VFloat 57.0);
            ("volume_scalar", VFloat 0.57);
            ("volume_db", VFloat (-12.35));
            ("is_muted", VBool false);
            ("status", VStr "success")], w')).
Proof.
  split.
  - intros S self ep w s d1 db d2 m d3 Hep Hs Hdb Hm.
    run. rewrite Hep. cbn [device calls log]. rewrite Hs. cbn [device calls log].
    rewrite Hdb. cbn [device calls log]. rewrite Hm.
    eexists. cbn [device calls log]. rewrite <- ?app_assoc. repeat split.
  - eexists. vm_compute. reflexivity.
Qed.

Lemma get_volume_reads_and_rounds_witness :
  exists w',
    VolumeController.get_volume fake_controller (fresh_world (mk_fake 0.25 (-20.5) 1)) =
      (Ok [("volume_percentage", VFloat (PyFloat.round (0.25 * 100)%float 1));
           ("volume_scalar", VFloat 0.25);
           ("volume_db", VFloat (PyFloat.round (-20.5) 2));
           ("is_muted", VBool true);
           ("status", VStr "success")], w') /\
    calls w' = [mk_event GetMasterVolumeLevelScalar_ None;
                mk_event GetMasterVolumeLevel_ None;
                mk_event GetMute_ None] /\
    device w' = mk_fake 0.25 (-20.5) 1.
Proof.
  exact (proj1 get_volume_reads_and_rounds FakeDevice fake_controller fake_endpoint
           (fresh_world (mk_fake 0.25 (-20.5) 1))
           0.25%float (mk_fake 0.25 (-20.5) 1)
           (-20.5)%float (mk_fake 0.25 (-20.5) 1)
           1 (mk_fake 0.25 (-20.5) 1)
           eq_refl eq_refl eq_refl eq_refl).
Defined.

(** ** A facade whose construction failed *)

Lemma uninitialised_method (S : Type) (self : VolumeController.t S)
    (op : operation) (w : World S) :
  VolumeController._volume self = None ->
  exists w',
    method op self w = (Ok (error_result "Audio interface not initialized"), w') /\
    calls w' = calls w /\
    device w' = device w.
Proof.
  intros Hnone. destruct op; run; rewrite Hnone; eexists; repeat split.
Qed.

(** C7. When the acquisition of the endpoint raises, the constructor
    raises the same exception and leaves the attribute at [None]; on that
    instance each of the five methods returns the error result "Audio
    interface not initialized" and makes no call at all: nothing is
    acquired again and the device is not touched. *)
Theorem failed_construction_fails_fast :
  forall (S : Type) (acquire : S -> outcome (Endpoint S) * S)
         (w0 : World S) (e : exn) (d0 : S),
    acquire (device w0) = (Raise e, d0) ->
    exists (self : VolumeController.t S) (w1 : World S),
      VolumeController.__init__ acquire w0 = (Raise e, self, w1) /\
      VolumeController._volume self = None /\
      forall (op : operation) (w : World S),
      exists w',
        method op self w = (Ok (error_result "Audio interface not initialized"), w') /\
        calls w' = calls w /\
        device w' = device w.
Proof.
  intros S acquire w0 e d0 Hacq.
  unfold VolumeController.__init__, VolumeController._initialize_audio, invoke, logger_error.
  rewrite Hacq. cbn [raised device calls log].
  do 2 eexists. split; [reflexivity|]. split; [reflexivity|].
  intros op w. now apply uninitialised_method.
Qed.

Lemma failed_construction_fails_fast_witness :
  exists (self : VolumeController.t FakeDevice) (w1 : World FakeDevice),
    VolumeController.__init__ (fun d => (Raise (mk_exn ["OSError"] "no audio device"), d))
      (fresh_world (mk_fake 0.5 (-10) 0))
      = (Raise (mk_exn ["OSError"] "no audio device"), self, w1) /\
    VolumeController._volume self = None /\
    forall (op : operation) (w : World FakeDevice),
    exists w',
      method op self w = (Ok (error_result "Audio interface not initialized"), w') /\
      calls w' = calls w /\
      device w' = device w.
Proof.
  apply (failed_construction_fails_fast FakeDevice
           (fun d => (Raise (mk_exn ["OSError"] "no audio device"), d))
           (fresh_world (mk_fake 0.5 (-10) 0))
           (mk_exn ["OSError"] "no audio device")
           (mk_fake 0.5 (-10) 0)).
  reflexivity.
Defined.

(** ** The rendered texts *)

(** C8, as stated, fails: the texts open with a marker. When every call of
    the endpoint raises "device unplugged" the tool [get_volume] answers
    with the cross marker, a space and then "Error: device unplugged"; on
    the fake endpoint at scalar 0.57 its success text opens with the
    speaker marker; and an exception whose message holds a line feed is
    rendered on two lines. *)
Lemma rendered_text_has_marker :
  (exists w',
     get_volume (faulty_controller (all_fault (mk_exn ["OSError"] "device unplugged")))
       (fresh_world (mk_fake 0.57 (-12.345) 0))
       = (Ok (cross_mark ++ " Error: device unplugged"), w') /\
     cross_mark ++ " Error: device unplugged" <> "Error: device unplugged") /\
  (exists w',
     get_volume fake_controller (fresh_world (mk_fake 0.57 (-12.345) 0))
       = (Ok (speaker_mark ++ " Volume: 57.0% | Muted: No | dB: -12.35"), w') /\
     speaker_mark ++ " Volume: 57.0% | Muted: No | dB: -12.35"
       <> "Volume: 57.0% | Muted: No | dB: -12.35") /\
  (exists t w',
     mute (faulty_controller
             (all_fault (mk_exn ["OSError"] ("call failed:" ++ line_feed ++ "no device"))))
       (fresh_world (mk_fake 0.57 (-12.345) 0))
       = (Ok t, w') /\
     single_line t = false).
Proof.
  split; [|split].
  - eexists. split; [vm_compute; reflexivity | vm_compute; discriminate].
  - eexists. split; [vm_compute; reflexivity | vm_compute; discriminate].
  - do 2 eexists. split; vm_compute; reflexivity.
Qed.

Ltac run_tool :=
  cbv beta iota delta
    [tool get_volume set_volume mute unmute toggle_mute render_error getitem].

Ltac text_case :=
  do 3 eexists; split; [reflexivity|]; split; [reflexivity|];
  cbn [is_error dict_get String.eqb Ascii.eqb Bool.eqb value_eq_str error_result];
  repeat eexists.

(** C8, amended. Each tool returns a text and raises nothing. When the
    method returned an error result the text is the cross marker, a space,
    "Error: " and the message, on one line exactly when the message is.
    Otherwise the text of [get_volume] is the
    speaker marker followed by " Volume: {percentage}% | Muted: Yes/No |
    dB: {db}", that of [set_volume] the speaker marker followed by
    " Volume set to {actual}% (requested: {requested}%)", and that of the
    three mute tools a marker, a space and the message of the result. *)
Theorem rendered_text :
  forall (S : Type) (op : operation) (vc : VolumeController.t S) (w : World S),
  exists (d : dict) (w' : World S) (t : string),
    method op vc w = (Ok d, w') /\
    tool op vc w = (Ok t, w') /\
    if is_error d then
      exists msg,
        d = error_result msg /\
        t = cross_mark ++ " Error: " ++ msg /\
        single_line t = single_line msg
    else
      match op with
      | Query =>
          exists p m db,
            dict_get d "volume_percentage" = Some (VFloat p) /\
            dict_get d "is_muted" = Some (VBool m) /\
            dict_get d "volume_db" = Some (VFloat db) /\
            t = speaker_mark ++ " Volume: " ++ PyFloat.repr p ++ "% | Muted: "
                  ++ (if m then "Yes" else "No") ++ " | dB: " ++ PyFloat.repr db
      | Set_ _ =>
          exists a r,
            dict_get d "actual_percentage" = Some (VFloat a) /\
            dict_get d "requested_percentage" = Some (VFloat r) /\
            t = speaker_mark ++ " Volume set to " ++ PyFloat.repr a
                  ++ "% (requested: " ++ PyFloat.repr r ++ "%)"
      | Mute =>
          exists msg,
            dict_get d "message" = Some (VStr msg) /\
            t = mute_mark ++ " " ++ msg
      | Unmute | ToggleMute =>
          exists msg,
            dict_get d "message" = Some (VStr msg) /\
            t = muted_speaker_mark ++ " " ++ msg
      end.
Proof.
  intros S op vc w.
  destruct op; run_tool; run;
    (destruct (VolumeController._volume vc) as [ep|]; cbn [device calls log];
     [ explore; text_case | text_case ]).
Qed.

(** ** Reads and writes of the device *)

Lemma read_scalar_same {S} (ep : Endpoint S) (d d' : S) (r : outcome float) :
  reads_preserve ep -> GetMasterVolumeLevelScalar ep d = (r, d') -> d' = d.
Proof. intros (H & _ & _) E. specialize (H d). now rewrite E in H. Qed.

Lemma read_level_same {S} (ep : Endpoint S) (d d' : S) (r : outcome float) :
  reads_preserve ep -> GetMasterVolumeLevel ep d = (r, d') -> d' = d.
Proof. intros (_ & H & _) E. specialize (H d). now rewrite E in H. Qed.

Lemma read_mute_same {S} (ep : Endpoint S) (d d' : S) (r : outcome Z) :
  reads_preserve ep -> GetMute ep d = (r, d') -> d' = d.
Proof. intros (_ & _ & H) E. specialize (H d). now rewrite E in H. Qed.

Lemma fake_reads_preserve (fault : call -> option exn) :
  reads_preserve (faulty_endpoint fault).
Proof.
  repeat split; intros d; cbn; unfold fake_call;
    match goal with |- context [fault ?c] => destruct (fault c) end; reflexivity.
Qed.

Lemma fake_failed_write_preserves (fault : call -> option exn) :
  failed_write_preserves (faulty_endpoint fault).
Proof.
  split; intros x d e d'; cbn; unfold fake_call;
    match goal with |- context [fault ?c] => destruct (fault c) end;
    intros [= ]; congruence.
Qed.

(** Undo the reads recorded in the context, first to last. *)
Ltac undo_reads Hp :=
  repeat match goal with
  | H : GetMasterVolumeLevelScalar _ _ = _ |- _ =>
      apply (read_scalar_same _ _ _ _ Hp) in H; subst
  | H : GetMasterVolumeLevel _ _ = _ |- _ =>
      apply (read_level_same _ _ _ _ Hp) in H; subst
  | H : GetMute _ _ = _ |- _ =>
      apply (read_mute_same _ _ _ _ Hp) in H; subst
  end.

(** C9. [get_volume] calls only the three reads of the endpoint, whether
    it returns a reading or an error result; so with an endpoint whose
    reads leave the device alone, the device after the call is the device
    before it. *)
Theorem get_volume_only_reads :
  forall (S : Type) (self : VolumeController.t S) (w : World S),
  exists (d : dict) (w' : World S) (evs : list event),
    VolumeController.get_volume self w = (Ok d, w') /\
    calls w' = (calls w ++ evs)%list /\
    Forall (fun ev => is_read (ev_call ev) = true) evs /\
    ((forall ep, VolumeController._volume self = Some ep -> reads_preserve ep) ->
     device w' = device w).
Proof.
  intros S self w. run.
  destruct (VolumeController._volume self) as [ep|]; cbn [device calls log].
  - explore;
      (do 3 eexists; split; [reflexivity|]; cbn [device calls log]; split;
       [ rewrite <- ?app_assoc; reflexivity
       | split; [ repeat constructor
                | intros Hp; specialize (Hp ep eq_refl); undo_reads Hp; reflexivity ] ]).
  - exists (error_result "Audio interface not initialized").
    eexists. exists []. cbn [device calls log].
    split; [reflexivity|]. split; [symmetry; apply app_nil_r|]. split; [constructor|reflexivity].
Qed.

Lemma get_volume_only_reads_witness :
  exists (d : dict) (w' : World FakeDevice) (evs : list event),
    VolumeController.get_volume
      (faulty_controller (write_fault (mk_exn ["OSError"] "read only")))
      (fresh_world (mk_fake 0.57 (-12.345) 1)) = (Ok d, w') /\
    calls w' = evs /\
    Forall (fun ev => is_read (ev_call ev) = true) evs /\
    device w' = mk_fake 0.57 (-12.345) 1.
Proof.
  destruct (get_volume_only_reads FakeDevice
              (faulty_controller (write_fault (mk_exn ["OSError"] "read only")))
              (fresh_world (mk_fake 0.57 (-12.345) 1)))
    as (d & w' & evs & Hrun & Hcalls & Hreads & Hdev).
  exists d, w', evs. repeat split; try assumption.
  apply Hdev. intros ep [= <-]. apply fake_reads_preserve.
Defined.

(** ** Atomicity of the mute operations *)

Ltac split_events :=
  cbn [app];
  lazymatch goal with
  | |- write_last [] => exists [], []
  | |- write_last [?a] => exists [a], []
  | |- write_last [?a; ?b] => exists [a], [b]
  end;
  split; [reflexivity|]; split; [repeat constructor|];
  first [ left; reflexivity | right; do 2 eexists; reflexivity ].

Ltac no_write :=
  cbn [app]; intros ev Hin Hw;
  repeat (destruct Hin as [<-|Hin]; [try discriminate Hw; cbn; discriminate|]);
  destruct Hin.

Ltac untouched ep :=
  let Hp := fresh "Hp" in
  let Hr := fresh "Hr" in
  let Hf := fresh "Hf" in
  intros Hp; destruct (Hp ep eq_refl) as [Hr [_ Hf]];
  repeat match goal with
  | H : SetMute _ _ _ = (Raise _, _) |- _ => apply Hf in H; subst
  end;
  undo_reads Hr; reflexivity.

Ltac atomic_case ep :=
  do 3 eexists; split; [reflexivity|]; cbn [device calls log]; split;
  [ rewrite <- ?app_assoc; reflexivity
  | split; [ split_events
           | cbn [is_error dict_get String.eqb Ascii.eqb Bool.eqb value_eq_str error_result];
             intros He;
             first [ discriminate He | split; [ no_write | untouched ep ] ] ] ].

Ltac atomic_none :=
  do 2 eexists; exists []; (split; [reflexivity|]); cbn [device calls log];
  (split; [symmetry; apply app_nil_r|]);
  (split; [exists [], []; repeat split; auto|]);
  intros _; (split; [intros ev []|reflexivity]).

(** C10. In [mute], [unmute] and [toggle_mute] the write of the flag, if
    any, is the last call on the endpoint. So when one of them returns an
    error result no write has returned, and, the reads and the failed
    writes of the endpoint leaving the device alone, the device and its
    mute flag are as before the call. *)
Theorem mute_operations_atomic_on_error :
  forall S : Type,
    atomic_on_error (@VolumeController.mute S) /\
    atomic_on_error (@VolumeController.unmute S) /\
    atomic_on_error (@VolumeController.toggle_mute S).
Proof.
  intros S. repeat split; intros self w;
    (destruct (VolumeController._volume self) as [ep|] eqn:Hvol;
     [ run; rewrite Hvol; cbn [device calls log]; explore;
       try match goal with u : unit |- _ => destruct u end;
       atomic_case ep
     | run; rewrite Hvol; atomic_none ]).
Qed.

Lemma mute_operations_atomic_on_error_witness :
  exists (d : dict) (w' : World FakeDevice) (evs : list event),
    VolumeController.mute (faulty_controller (write_fault (mk_exn ["OSError"] "access denied")))
      (fresh_world (mk_fake 0.5 (-10) 0)) = (Ok d, w') /\
    d = error_result "access denied" /\
    calls w' = evs /\
    no_write_returned evs /\
    device w' = mk_fake 0.5 (-10) 0.
Proof.
  destruct (proj1 (mute_operations_atomic_on_error FakeDevice)
              (faulty_controller (write_fault (mk_exn ["OSError"] "access denied")))
              (fresh_world (mk_fake 0.5 (-10) 0)))
    as (d & w' & evs & Hrun & Hcalls & _ & Herr).
  assert (Hd : d = error_result "access denied").
  { vm_compute in Hrun. now injection Hrun as <- _. }
  exists d, w', evs. split; [exact Hrun|]. split; [exact Hd|]. split; [exact Hcalls|].
  subst d. destruct (Herr eq_refl) as [Hno Hdev]. split; [exact Hno|].
  apply Hdev. intros ep [= <-]. split.
  - apply fake_reads_preserve.
  - apply fake_failed_write_preserves.
Defined.

(** * Further properties of the code *)

(** ** Construction *)


(** X2. A failed construction is logged with the message of the
    exception, as missing libraries when the exception is an
    [ImportError] (or of a class derived from it) and as a failed
    initialisation otherwise. *)
Theorem construction_failure_logged :
  forall (S : Type) (acquire : S -> outcome (Endpoint S) * S) (w0 : World S)
         (e : exn) (d0 : S),
    acquire (device w0) = (Raise e, d0) ->
    exists (self : VolumeController.t S) (w1 : World S),
      VolumeController.__init__ acquire w0 = (Raise e, self, w1) /\
      log w1 = (log w0 ++
        [(ERROR, ((if existsb (String.eqb "ImportError") (exn_bases e)
                   then "Required libraries not installed: "
                   else "Failed to initialize audio interface: ") ++ exn_str e)%string)])%list.
Proof.
  intros S acquire w0 e d0 Hacq.
  unfold VolumeController.__init__, VolumeController._initialize_audio,
    invoke, logger_error, isinstance.
  rewrite Hacq. cbn [raised device calls log].
  do 2 eexists. split; [reflexivity|]. cbn [log].
  destruct (existsb (String.eqb "ImportError") (exn_bases e)); reflexivity.
Qed.

Lemma construction_failure_logged_witness :
  exists (self : VolumeController.t FakeDevice) (w1 : World FakeDevice),
    VolumeController.__init__
      (fun d => (Raise (mk_exn ["ModuleNotFoundError"; "ImportError"] "No module named 'pycaw'"), d))
      (fresh_world (mk_fake 0.5 (-10) 0))
      = (Raise (mk_exn ["ModuleNotFoundError"; "ImportError"] "No module named 'pycaw'"),
         self, w1) /\
    log w1 = [(ERROR, "Required libraries not installed: No module named 'pycaw'")].
Proof.
  apply (construction_failure_logged FakeDevice
           (fun d => (Raise (mk_exn ["ModuleNotFoundError"; "ImportError"]
                                    "No module named 'pycaw'"), d))
           (fresh_world (mk_fake 0.5 (-10) 0))
           (mk_exn ["ModuleNotFoundError"; "ImportError"] "No module named 'pycaw'")
           (mk_fake 0.5 (-10) 0)).
  reflexivity.
Defined.

(** ** More on [set_volume] *)

(** X3. On an initialised facade the range test decides whether the
    endpoint is touched: when the percentage fails [0 <= p <= 100], as
    not-a-number does, the range error is returned after no call; when it
    passes, the first call is the write of [p / 100]. *)
Theorem set_volume_validates_first :
  forall (S : Type) (self : VolumeController.t S) (ep : Endpoint S)
         (p : float) (w : World S),
    VolumeController._volume self = Some ep ->
    exists (d : dict) (w' : World S),
      VolumeController.set_volume self p w = (Ok d, w') /\
      if in_range p then
        exists r evs,
          calls w' = (calls w ++ mk_event (SetMasterVolumeLevelScalar_ (p / 100)%float) r
                                   :: evs)%list
      else
        d = error_result "Volume percentage must be between 0 and 100" /\
        calls w' = calls w /\
        device w' = device w.
Proof.
  intros S self ep p w Hep. unfold in_range.
  run. rewrite Hep. cbn [device calls log].
  destruct ((0 <=? p)%float && (p <=? 100)%float); cbn [device calls log].
  - explore; try match goal with u : unit |- _ => destruct u end;
      do 2 eexists; (split; [reflexivity|]); cbn [calls];
      do 2 eexists; rewrite <- ?app_assoc; reflexivity.
  - do 2 eexists. repeat split.
Qed.

Lemma set_volume_validates_first_witness :
  exists (d : dict) (w' : World FakeDevice),
    VolumeController.set_volume fake_controller nan (fresh_world (mk_fake 0.5 (-10) 0))
      = (Ok d, w') /\
    d = error_result "Volume percentage must be between 0 and 100" /\
    calls w' = [] /\
    device w' = mk_fake 0.5 (-10) 0.
Proof.
  exact (set_volume_validates_first FakeDevice fake_controller fake_endpoint nan
           (fresh_world (mk_fake 0.5 (-10) 0)) eq_refl).
Defined.

(** X4. The two ways [set_volume] fails on the endpoint, for a percentage
    in range. If the write raises, nothing is read back and the error
    carries the message of the write. If the write returns and the read
    back raises, the error carries the message of the read although the
    write has taken effect: the device is left as the write and the read
    made it. *)
Theorem set_volume_failure_modes :
  forall (S : Type) (self : VolumeController.t S) (ep : Endpoint S)
         (p : float) (w : World S),
    VolumeController._volume self = Some ep ->
    in_range p = true ->
    (forall (e : exn) (d1 : S),
       SetMasterVolumeLevelScalar ep (p / 100)%float (device w) = (Raise e, d1) ->
       exists w',
         VolumeController.set_volume self p w = (Ok (error_result (exn_str e)), w') /\
         calls w' = (calls w ++ [mk_event (SetMasterVolumeLevelScalar_ (p / 100)%float)
                                          (Some e)])%list /\
         device w' = d1) /\
    (forall (d1 : S) (e : exn) (d2 : S),
       SetMasterVolumeLevelScalar ep (p / 100)%float (device w) = (Ok tt, d1) ->
       GetMasterVolumeLevelScalar ep d1 = (Raise e, d2) ->
       exists w',
         VolumeController.set_volume self p w = (Ok (error_result (exn_str e)), w') /\
         calls w' = (calls w ++ [mk_event (SetMasterVolumeLevelScalar_ (p / 100)%float) None;
                                 mk_event GetMasterVolumeLevelScalar_ (Some e)])%list /\
         device w' = d2).
Proof.
  intros S self ep p w Hep Hp. unfold in_range in Hp. split.
  - intros e d1 Hset. run. rewrite Hep, Hp. cbn [device calls log]. rewrite Hset.
    eexists. cbn [device calls log]. repeat split.
  - intros d1 e d2 Hset Hget. run. rewrite Hep, Hp. cbn [device calls log].
    rewrite Hset. cbn [device calls log]. rewrite Hget.
    eexists. cbn [device calls log]. rewrite <- ?app_assoc. repeat split.
Qed.

Lemma set_volume_failure_modes_witness :
  exists w',
    VolumeController.set_volume
      (faulty_controller (read_fault (mk_exn ["OSError"] "device busy"))) 80
      (fresh_world (mk_fake 0.5 (-10) 0))
      = (Ok (error_result "device busy"), w') /\
    calls w' = [mk_event (SetMasterVolumeLevelScalar_ (80 / 100)%float) None;
                mk_event GetMasterVolumeLevelScalar_ (Some (mk_exn ["OSError"] "device busy"))] /\
    device w' = mk_fake (80 / 100)%float (-10) 0.
Proof.
  refine (proj2 (set_volume_failure_modes FakeDevice
                   (faulty_controller (read_fault (mk_exn ["OSError"] "device busy")))
                   (faulty_endpoint (read_fault (mk_exn ["OSError"] "device busy")))
                   80 (fresh_world (mk_fake 0.5 (-10) 0)) eq_refl _)
                (mk_fake (80 / 100)%float (-10) 0)
                (mk_exn ["OSError"] "device busy")
                (mk_fake (80 / 100)%float (-10) 0) _ _).
  - vm_compute. reflexivity.
  - reflexivity.
  - reflexivity.
Defined.

(** X5. Set followed by Query. On an endpoint with exact scalar semantics
    whose level and mute reads return and leave the device alone,
    [set_volume p] for a percentage in range followed by [get_volume]
    gives two successes that agree: the percentage of the reading is the
    actual percentage of the set, both are computed from the scalar
    [p / 100], and the reading leaves the device as the set left it. *)
Theorem set_then_query_agree :
  forall (S : Type) (self : VolumeController.t S) (ep : Endpoint S)
         (p : float) (w : World S),
    VolumeController._volume self = Some ep ->
    in_range p = true ->
    exact_scalar ep ->
    steady_reads ep ->
    exists (r1 : dict) (w1 : World S) (r2 : dict) (w2 : World S),
      VolumeController.set_volume self p w = (Ok r1, w1) /\
      VolumeController.get_volume self w1 = (Ok r2, w2) /\
      dict_get r1 "actual_percentage"
        = Some (VFloat (PyFloat.round ((p / 100) * 100)%float 1)) /\
      dict_get r2 "volume_percentage" = dict_get r1 "actual_percentage" /\
      dict_get r2 "volume_scalar" = Some (VFloat (p / 100)%float) /\
      dict_get r2 "status" = Some (VStr "success") /\
      device w2 = device w1.
Proof.
  intros S self ep p w Hep Hp Hexact Hsteady. unfold in_range in Hp.
  destruct (Hexact (p / 100)%float (device w)) as (d1 & Hset & Hget).
  destruct (Hsteady d1) as (db & m & Hdb & Hm).
  assert (Hrun1 : exists w1,
            VolumeController.set_volume self p w =
              (Ok [("requested_percentage", VFloat p);
                   ("actual_percentage", VFloat (PyFloat.round ((p / 100) * 100)%float 1));
                   ("volume_scalar", VFloat (p / 100)%float);
                   ("status", VStr "success")], w1) /\
            device w1 = d1).
  { run. rewrite Hep, Hp. cbn [device calls log]. rewrite Hset.
    cbn [device calls log]. rewrite Hget. eexists. split; reflexivity. }
  destruct Hrun1 as (w1 & Hrun1 & Hdev1).
  assert (Hrun2 : exists w2,
            VolumeController.get_volume self w1 =
              (Ok [("volume_percentage", VFloat (PyFloat.round ((p / 100) * 100)%float 1));
                   ("volume_scalar", VFloat (p / 100)%float);
                   ("volume_db", VFloat (PyFloat.round db 2));
                   ("is_muted", VBool (truthy m));
                   ("status", VStr "success")], w2) /\
            device w2 = d1).
  { run. rewrite Hep, Hdev1. cbn [device calls log]. rewrite Hget.
    cbn [device calls log]. rewrite Hdb. cbn [device calls log]. rewrite Hm.
    eexists. split; reflexivity. }
  destruct Hrun2 as (w2 & Hrun2 & Hdev2).
  do 4 eexists. split; [exact Hrun1|]. split; [exact Hrun2|].
  rewrite Hdev1, Hdev2. repeat split.
Qed.

Lemma fake_steady_reads : steady_reads fake_endpoint.
Proof. intros d. do 2 eexists. split; reflexivity. Qed.

Lemma set_then_query_agree_witness :
  exists (r1 : dict) (w1 : World FakeDevice) (r2 : dict) (w2 : World FakeDevice),
    VolumeController.set_volume fake_controller 0.85 (fresh_world (mk_fake 0.5 (-10) 0))
      = (Ok r1, w1) /\
    VolumeController.get_volume fake_controller w1 = (Ok r2, w2) /\
    dict_get r1 "actual_percentage"
      = Some (VFloat (PyFloat.round ((0.85 / 100) * 100)%float 1)) /\
    dict_get r2 "volume_percentage" = dict_get r1 "actual_percentage" /\
    dict_get r2 "volume_scalar" = Some (VFloat (0.85 / 100)%float) /\
    dict_get r2 "status" = Some (VStr "success") /\
    device w2 = device w1.
Proof.
  apply (set_then_query_agree FakeDevice fake_controller fake_endpoint 0.85
           (fresh_world (mk_fake 0.5 (-10) 0)) eq_refl).
  - vm_compute. reflexivity.
  - exact fake_exact_scalar.
  - exact fake_steady_reads.
Defined.

(** ** How the mute operations compose *)

Section Composition.

Variable S : Type.
Variable self : VolumeController.t S.
Variable ep : Endpoint S.
Variable flag : S -> Z.
Hypothesis Hep : VolumeController._volume self = Some ep.
Hypothesis Hexact : exact_mute ep flag.

(** [mute] on an endpoint with exact mute semantics: a success that
    reports the flag read, and a device whose flag is set. *)
Lemma mute_exact (w : World S) :
  exists r w',
    VolumeController.mute self w = (Ok r, w') /\
    dict_get r "was_muted" = Some (VBool (truthy (flag (device w)))) /\
    dict_get r "is_muted" = Some (VBool true) /\
    dict_get r "status" = Some (VStr "success") /\
    truthy (flag (device w')) = true /\
    (truthy (flag (device w)) = true ->
       device w' = device w /\
       calls w' = (calls w ++ [mk_event GetMute_ None])%list) /\
    (truthy (flag (device w)) = false ->
       flag (device w') = 1 /\
       SetMute ep 1 (device w) = (Ok tt, device w')).
Proof.
  destruct Hexact as [Hget Hset].
  destruct (Hset 1 (device w)) as (d1 & Hset1 & Hflag1).
  run. rewrite Hep. cbn [device calls log]. rewrite (Hget (device w)).
  cbn [device calls log].
  destruct (truthy (flag (device w))) eqn:Hm; cbn [device calls log].
  - do 2 eexists. split; [reflexivity|]. cbn [device calls]. rewrite Hm.
    repeat split; intros; try discriminate; repeat split; auto.
  - rewrite Hset1. do 2 eexists. split; [reflexivity|]. cbn [device calls].
    rewrite Hflag1. repeat split; intros; try discriminate; repeat split; auto.
Qed.

Lemma unmute_exact (w : World S) :
  exists r w',
    VolumeController.unmute self w = (Ok r, w') /\
    dict_get r "was_muted" = Some (VBool (truthy (flag (device w)))) /\
    dict_get r "is_muted" = Some (VBool false) /\
    dict_get r "status" = Some (VStr "success") /\
    truthy (flag (device w')) = false /\
    (truthy (flag (device w)) = false ->
       device w' = device w /\
       calls w' = (calls w ++ [mk_event GetMute_ None])%list) /\
    (truthy (flag (device w)) = true ->
       flag (device w') = 0 /\
       SetMute ep 0 (device w) = (Ok tt, device w')).
Proof.
  destruct Hexact as [Hget Hset].
  destruct (Hset 0 (device w)) as (d1 & Hset1 & Hflag1).
  run. rewrite Hep. cbn [device calls log]. rewrite (Hget (device w)).
  cbn [device calls log].
  destruct (truthy (flag (device w))) eqn:Hm; cbn [device calls log negb].
  - rewrite Hset1. do 2 eexists. split; [reflexivity|]. cbn [device calls].
    rewrite Hflag1. repeat split; intros; try discriminate; repeat split; auto.
  - do 2 eexists. split; [reflexivity|]. cbn [device calls]. rewrite Hm.
    repeat split; intros; try discriminate; repeat split; auto.
Qed.

(** X6. Mute twice, and unmute twice. Whatever the flag was, after one
    [mute] a second [mute] finds the endpoint muted: it reports
    [was_muted] true, makes the read and no write, and leaves the device
    untouched. [unmute] does the same on the other side. *)
Theorem mute_then_mute_is_noop :
  forall w : World S,
    (exists r1 w1 r2 w2,
       VolumeController.mute self w = (Ok r1, w1) /\
       VolumeController.mute self w1 = (Ok r2, w2) /\
       dict_get r1 "was_muted" = Some (VBool (truthy (flag (device w)))) /\
       dict_get r2 "was_muted" = Some (VBool true) /\
       dict_get r2 "is_muted" = Some (VBool true) /\
       calls w2 = (calls w1 ++ [mk_event GetMute_ None])%list /\
       device w2 = device w1) /\
    (exists r1 w1 r2 w2,
       VolumeController.unmute self w = (Ok r1, w1) /\
       VolumeController.unmute self w1 = (Ok r2, w2) /\
       dict_get r1 "was_muted" = Some (VBool (truthy (flag (device w)))) /\
       dict_get r2 "was_muted" = Some (VBool false) /\
       dict_get r2 "is_muted" = Some (VBool false) /\
       calls w2 = (calls w1 ++ [mk_event GetMute_ None])%list /\
       device w2 = device w1).
Proof.
  intros w. split.
  - destruct (mute_exact w) as (r1 & w1 & Hrun1 & Hwas1 & _ & _ & Hm1 & _).
    destruct (mute_exact w1) as (r2 & w2 & Hrun2 & Hwas2 & His2 & _ & _ & Hsame & _).
    destruct (Hsame Hm1) as [Hdev Hcalls].
    exists r1, w1, r2, w2. rewrite Hm1 in Hwas2. repeat split; assumption.
  - destruct (unmute_exact w) as (r1 & w1 & Hrun1 & Hwas1 & _ & _ & Hm1 & _).
    destruct (unmute_exact w1) as (r2 & w2 & Hrun2 & Hwas2 & His2 & _ & _ & Hsame & _).
    destruct (Hsame Hm1) as [Hdev Hcalls].
    exists r1, w1, r2, w2. rewrite Hm1 in Hwas2. repeat split; assumption.
Qed.

(** X7. Mute and unmute undo each other. After [mute], [unmute] reports
    [was_muted] true and leaves the flag at 0; after [unmute], [mute]
    reports [was_muted] false and leaves the flag at 1. *)
Theorem mute_unmute_undo :
  forall w : World S,
    (exists r1 w1 r2 w2,
       VolumeController.mute self w = (Ok r1, w1) /\
       VolumeController.unmute self w1 = (Ok r2, w2) /\
       dict_get r2 "was_muted" = Some (VBool true) /\
       dict_get r2 "is_muted" = Some (VBool false) /\
       flag (device w2) = 0) /\
    (exists r1 w1 r2 w2,
       VolumeController.unmute self w = (Ok r1, w1) /\
       VolumeController.mute self w1 = (Ok r2, w2) /\
       dict_get r2 "was_muted" = Some (VBool false) /\
       dict_get r2 "is_muted" = Some (VBool true) /\
       flag (device w2) = 1).
Proof.
  intros w. split.
  - destruct (mute_exact w) as (r1 & w1 & Hrun1 & _ & _ & _ & Hm1 & _).
    destruct (unmute_exact w1) as (r2 & w2 & Hrun2 & Hwas2 & His2 & _ & _ & _ & Hwrite).
    destruct (Hwrite Hm1) as [Hflag _].
    exists r1, w1, r2, w2. rewrite Hm1 in Hwas2. repeat split; assumption.
  - destruct (unmute_exact w) as (r1 & w1 & Hrun1 & _ & _ & _ & Hm1 & _).
    destruct (mute_exact w1) as (r2 & w2 & Hrun2 & Hwas2 & His2 & _ & _ & _ & Hwrite).
    destruct (Hwrite Hm1) as [Hflag _].
    exists r1, w1, r2, w2. rewrite Hm1 in Hwas2. repeat split; assumption.
Qed.

(** X8. [toggle_mute] does what [mute] does on an unmuted endpoint and
    what [unmute] does on a muted one: the same write, hence the same
    device, and the same [was_muted] and [is_muted]. *)
Theorem toggle_agrees_with_mute_and_unmute :
  forall w : World S,
  exists rt wt ro wo,
    VolumeController.toggle_mute self w = (Ok rt, wt) /\
    (if truthy (flag (device w))
     then VolumeController.unmute self w
     else VolumeController.mute self w) = (Ok ro, wo) /\
    device wt = device wo /\
    calls wt = calls wo /\
    dict_get rt "was_muted" = dict_get ro "was_muted" /\
    dict_get rt "is_muted" = dict_get ro "is_muted" /\
    dict_get rt "status" = dict_get ro "status".
Proof.
  intros w. destruct Hexact as [Hget Hset].
  destruct (truthy (flag (device w))) eqn:Hm.
  - destruct (Hset 0 (device w)) as (d1 & Hset1 & _).
    run. rewrite Hep. cbn [device calls log]. rewrite (Hget (device w)).
    cbn [device calls log]. rewrite Hm. cbn [negb device calls log]. rewrite Hset1.
    do 4 eexists. repeat split.
  - destruct (Hset 1 (device w)) as (d1 & Hset1 & _).
    run. rewrite Hep. cbn [device calls log]. rewrite (Hget (device w)).
    cbn [device calls log]. rewrite Hm. cbn [negb device calls log]. rewrite Hset1.
    do 4 eexists. repeat split.
Qed.

End Composition.

Lemma fake_exact_mute : exact_mute fake_endpoint fake_mute.
Proof.
  split.
  - intros d. reflexivity.
  - intros v d. eexists. split; reflexivity.
Qed.

Lemma mute_then_mute_is_noop_witness :
  exists r1 w1 r2 w2,
    VolumeController.mute fake_controller (fresh_world (mk_fake 0.5 (-10) 0)) = (Ok r1, w1) /\
    VolumeController.mute fake_controller w1 = (Ok r2, w2) /\
    dict_get r1 "was_muted" = Some (VBool false) /\
    dict_get r2 "was_muted" = Some (VBool true) /\
    dict_get r2 "is_muted" = Some (VBool true) /\
    calls w2 = (calls w1 ++ [mk_event GetMute_ None])%list /\
    device w2 = device w1.
Proof.
  exact (proj1 (mute_then_mute_is_noop FakeDevice fake_controller fake_endpoint fake_mute
                  eq_refl fake_exact_mute (fresh_world (mk_fake 0.5 (-10) 0)))).
Defined.

Lemma mute_unmute_undo_witness :
  exists r1 w1 r2 w2,
    VolumeController.mute fake_controller (fresh_world (mk_fake 0.5 (-10) 0)) = (Ok r1, w1) /\
    VolumeController.unmute fake_controller w1 = (Ok r2, w2) /\
    dict_get r2 "was_muted" = Some (VBool true) /\
    dict_get r2 "is_muted" = Some (VBool false) /\
    fake_mute (device w2) = 0.
Proof.
  exact (proj1 (mute_unmute_undo FakeDevice fake_controller fake_endpoint fake_mute
                  eq_refl fake_exact_mute (fresh_world (mk_fake 0.5 (-10) 0)))).
Defined.

Lemma toggle_agrees_with_mute_and_unmute_witness :
  exists rt wt ro wo,
    VolumeController.toggle_mute fake_controller (fresh_world (mk_fake 0.5 (-10) 5)) = (Ok rt, wt) /\
    VolumeController.unmute fake_controller (fresh_world (mk_fake 0.5 (-10) 5)) = (Ok ro, wo) /\
    device wt = device wo /\
    calls wt = calls wo /\
    dict_get rt "was_muted" = dict_get ro "was_muted" /\
    dict_get rt "is_muted" = dict_get ro "is_muted" /\
    dict_get rt "status" = dict_get ro "status".
Proof.
  exact (toggle_agrees_with_mute_and_unmute FakeDevice fake_controller fake_endpoint fake_mute
           eq_refl fake_exact_mute (fresh_world (mk_fake 0.5 (-10) 5))).
Defined.

(** ** What every method keeps to *)

Ltac method_cases tac :=
  match goal with
  | |- forall (S : Type) (op : operation) (self : VolumeController.t S) (w : World S), _ =>
      intros S op self w;
      destruct op; run;
      (destruct (VolumeController._volume self) as [ep|]; cbn [device calls log];
       [ explore; try match goal with u : unit |- _ => destruct u end; tac | tac ])
  end.

Ltac scope_case :=
  do 3 eexists; split; [reflexivity|]; cbn [calls]; split;
  [ first [ rewrite <- ?app_assoc; reflexivity | symmetry; apply app_nil_r ]
  | cbn; repeat split; repeat constructor ].

(** X9. Each method stays within its scope, whatever the endpoint does:
    [get_volume] makes at most the three reads, [set_volume] at most two
    calls, both on the scalar volume, and the three mute methods at most
    two calls, both on the mute flag; no method writes more than once, and
    none makes a call after one that raised. *)
Theorem methods_stay_in_scope :
  forall (S : Type) (op : operation) (self : VolumeController.t S) (w : World S),
  exists (d : dict) (w' : World S) (evs : list event),
    method op self w = (Ok d, w') /\
    calls w' = (calls w ++ evs)%list /\
    Forall (fun ev => in_scope op (ev_call ev) = true) evs /\
    (List.length evs <= match op with Query => 3 | _ => 2 end)%nat /\
    (writes evs <= 1)%nat /\
    only_last_may_raise evs.
Proof.
  method_cases scope_case.
Qed.

Ltac shape_case :=
  do 2 eexists; split; [reflexivity|];
  first [ left; eexists; reflexivity | right; split; reflexivity ].

(** X10. A result dictionary is of exactly one kind: either the error
    result, with the keys "error" and "status" and nothing else, or a
    success, whose "status" is "success" and which has no "error" key. *)
Theorem result_is_error_or_success :
  forall (S : Type) (op : operation) (self : VolumeController.t S) (w : World S),
  exists (d : dict) (w' : World S),
    method op self w = (Ok d, w') /\
    ((exists msg, d = error_result msg) \/
     (dict_get d "status" = Some (VStr "success") /\ dict_get d "error" = None)).
Proof.
  method_cases shape_case.
Qed.

Ltac log_case :=
  do 3 eexists; split; [reflexivity|]; cbn [log]; split;
  [ first [ rewrite <- ?app_assoc; reflexivity | symmetry; apply app_nil_r ]
  | cbn [is_error dict_get String.eqb Ascii.eqb Bool.eqb value_eq_str error_result];
    first [ eexists; split; reflexivity
          | split; [repeat constructor | cbn; repeat constructor] ] ].

(** X11. What is logged. A method that returns the error result has
    written exactly one entry, at level ERROR, made of the prefix of the
    method and the very message it returns. A method that returns a
    success has written no ERROR entry and at most one entry at all. *)
Theorem errors_are_logged :
  forall (S : Type) (op : operation) (self : VolumeController.t S) (w : World S),
  exists (d : dict) (w' : World S) (entries : list (level * string)),
    method op self w = (Ok d, w') /\
    log w' = (log w ++ entries)%list /\
    if is_error d then
      exists msg, d = error_result msg /\ entries = [(ERROR, failure_prefix op ++ msg)]
    else
      Forall (fun entry => fst entry = INFO) entries /\ (List.length entries <= 1)%nat.
Proof.
  method_cases log_case.
Qed.

(** ** More on the rendered texts *)

Lemma prefix_of_error_text (s : string) :
  starts_with (cross_mark ++ " Error: " ++ s) (cross_mark ++ " Error: ") = true.
Proof. vm_compute. reflexivity. Qed.

Lemma prefix_of_success_text (s : string) :
  starts_with (speaker_mark ++ s) (cross_mark ++ " Error: ") = false /\
  starts_with (mute_mark ++ s) (cross_mark ++ " Error: ") = false /\
  starts_with (muted_speaker_mark ++ s) (cross_mark ++ " Error: ") = false.
Proof. repeat split; vm_compute; reflexivity. Qed.

Ltac prefix_case :=
  do 3 eexists; split; [reflexivity|]; split; [reflexivity|];
  cbn [is_error dict_get String.eqb Ascii.eqb Bool.eqb value_eq_str error_result];
  first [ apply prefix_of_error_text
        | apply (proj1 (prefix_of_success_text _))
        | apply (proj1 (proj2 (prefix_of_success_text _)))
        | apply (proj2 (proj2 (prefix_of_success_text _))) ].

(** X12. An error can be told from a success by the text alone: the text
    of a tool begins with the cross marker followed by " Error: " exactly
    when the method returned the error result. *)
Theorem error_text_is_recognisable :
  forall (S : Type) (op : operation) (vc : VolumeController.t S) (w : World S),
  exists (d : dict) (w' : World S) (t : string),
    method op vc w = (Ok d, w') /\
    tool op vc w = (Ok t, w') /\
    starts_with t (cross_mark ++ " Error: ") = is_error d.
Proof.
  intros S op vc w.
  destruct op; run_tool; run;
    (destruct (VolumeController._volume vc) as [ep|]; cbn [device calls log];
     [ explore; try match goal with u : unit |- _ => destruct u end; prefix_case
     | prefix_case ]).
Qed.

(** X13. The text of a rejected percentage. On an initialised facade the
    tool [set_volume] answers a percentage below 0 or above 100 with the
    cross marker and "Error: Volume percentage must be between 0 and
    100", and the endpoint has not been called. *)
Theorem set_volume_tool_rejects_out_of_range :
  forall (S : Type) (vc : VolumeController.t S) (ep : Endpoint S)
         (p : float) (w : World S),
    VolumeController._volume vc = Some ep ->
    (p <? 0)%float = true \/ (100 <? p)%float = true ->
    exists w' : World S,
      set_volume vc p w =
        (Ok (cross_mark ++ " Error: Volume percentage must be between 0 and 100"), w') /\
      calls w' = calls w /\
      device w' = device w.
Proof.
  intros S vc ep p w Hep Hp.
  run_tool. run. rewrite Hep, (out_of_range p Hp). cbn.
  eexists. repeat split.
Qed.

Lemma set_volume_tool_rejects_out_of_range_witness :
  exists w' : World FakeDevice,
    set_volume fake_controller (-5) (fresh_world (mk_fake 0.5 (-10) 0)) =
      (Ok (cross_mark ++ " Error: Volume percentage must be between 0 and 100"), w') /\
    calls w' = [] /\
    device w' = mk_fake 0.5 (-10) 0.
Proof.
  apply (set_volume_tool_rejects_out_of_range FakeDevice fake_controller fake_endpoint (-5)
           (fresh_world (mk_fake 0.5 (-10) 0))).
  - reflexivity.
  - left. vm_compute. reflexivity.
Defined.

(** X14. The text of an uninitialised facade. When the attribute is
    [None] every one of the five tools answers with the cross marker and
    "Error: Audio interface not initialized", and nothing is called. *)
Theorem tools_report_uninitialised :
  forall (S : Type) (op : operation) (vc : VolumeController.t S) (w : World S),
    VolumeController._volume vc = None ->
    exists w' : World S,
      tool op vc w = (Ok (cross_mark ++ " Error: Audio interface not initialized"), w') /\
      calls w' = calls w /\
      device w' = device w.
Proof.
  intros S op vc w Hnone.
  destruct op; run_tool; run; rewrite Hnone; cbn; eexists; repeat split.
Qed.

Lemma tools_report_uninitialised_witness :
  exists w' : World FakeDevice,
    tool ToggleMute (VolumeController.mk None) (fresh_world (mk_fake 0.5 (-10) 0)) =
      (Ok (cross_mark ++ " Error: Audio interface not initialized"), w') /\
    calls w' = [] /\
    device w' = mk_fake 0.5 (-10) 0.
Proof.
  exact (tools_report_uninitialised FakeDevice ToggleMute (VolumeController.mk None)
           (fresh_world (mk_fake 0.5 (-10) 0)) eq_refl).
Defined.

(** ** The texts end to end *)

(** X15. The text of a reading. When the three reads return the scalar
    [s], the level [db] and the flag [m], the tool [get_volume] answers
    with the speaker marker, the percentage [round(s * 100, 1)], "Yes" or
    "No" as the flag is non-zero or zero, and the level [round(db, 2)],
    each number written as [repr] writes it. *)
Theorem get_volume_text :
  forall (S : Type) (vc : VolumeController.t S) (ep : Endpoint S) (w : World S)
         (s : float) (d1 : S) (db : float) (d2 : S) (m : Z) (d3 : S),
    VolumeController._volume vc = Some ep ->
    GetMasterVolumeLevelScalar ep (device w) = (Ok s, d1) ->
    GetMasterVolumeLevel ep d1 = (Ok db, d2) ->
    GetMute ep d2 = (Ok m, d3) ->
    exists w',
      get_volume vc w =
        (Ok (speaker_mark ++ " Volume: " ++ PyFloat.repr (PyFloat.round (s * 100)%float 1)
               ++ "% | Muted: " ++ (if m =? 0 then "No" else "Yes")
               ++ " | dB: " ++ PyFloat.repr (PyFloat.round db 2)), w') /\
      device w' = d3.
Proof.
  intros S vc ep w s d1 db d2 m d3 Hep Hs Hdb Hm.
  run_tool. run. rewrite Hep. cbn [device calls log]. rewrite Hs. cbn [device calls log].
  rewrite Hdb. cbn [device calls log]. rewrite Hm.
  cbn [dict_get String.eqb Ascii.eqb Bool.eqb value_eq_str value_truthy format].
  unfold truthy. destruct (m =? 0); eexists; split; reflexivity.
Qed.

Lemma get_volume_text_witness :
  exists w',
    get_volume fake_controller (fresh_world (mk_fake 0.57 (-12.345) 1)) =
      (Ok (speaker_mark ++ " Volume: 57.0% | Muted: Yes | dB: -12.35"), w') /\
    device w' = mk_fake 0.57 (-12.345) 1.
Proof.
  exact (get_volume_text FakeDevice fake_controller fake_endpoint
           (fresh_world (mk_fake 0.57 (-12.345) 1))
           0.57%float (mk_fake 0.57 (-12.345) 1)
           (-12.345)%float (mk_fake 0.57 (-12.345) 1)
           1 (mk_fake 0.57 (-12.345) 1)
           eq_refl eq_refl eq_refl eq_refl).
Defined.

(** X16. The text of a set. For a percentage in range, when the write
    returns and the read back returns the scalar [a], the tool
    [set_volume] answers with the speaker marker, the actual percentage
    [round(a * 100, 1)] and the percentage asked for, each written as
    [repr] writes it; and the same actual percentage has been logged. *)
Theorem set_volume_text :
  forall (S : Type) (vc : VolumeController.t S) (ep : Endpoint S)
         (p : float) (w : World S) (d1 : S) (a : float) (d2 : S),
    VolumeController._volume vc = Some ep ->
    in_range p = true ->
    SetMasterVolumeLevelScalar ep (p / 100)%float (device w) = (Ok tt, d1) ->
    GetMasterVolumeLevelScalar ep d1 = (Ok a, d2) ->
    exists w',
      set_volume vc p w =
        (Ok (speaker_mark ++ " Volume set to "
               ++ PyFloat.repr (PyFloat.round (a * 100)%float 1)
               ++ "% (requested: " ++ PyFloat.repr p ++ "%)"), w') /\
      log w' = (log w ++ [(INFO, ("Volume set to "
               ++ PyFloat.repr (PyFloat.round (a * 100)%float 1) ++ "%")%string)])%list /\
      device w' = d2.
Proof.
  intros S vc ep p w d1 a d2 Hep Hp Hset Hget. unfold in_range in Hp.
  run_tool. run. rewrite Hep, Hp. cbn [device calls log]. rewrite Hset.
  cbn [device calls log]. rewrite Hget.
  eexists. split; [|split]; reflexivity.
Qed.

Lemma set_volume_text_witness :
  exists w',
    set_volume fake_controller 0.85 (fresh_world (mk_fake 0.5 (-10) 0)) =
      (Ok (speaker_mark ++ " Volume set to 0.9% (requested: 0.85%)"), w') /\
    log w' = [(INFO, "Volume set to 0.9%")] /\
    device w' = mk_fake (0.85 / 100)%float (-10) 0.
Proof.
  refine (set_volume_text FakeDevice fake_controller fake_endpoint 0.85
            (fresh_world (mk_fake 0.5 (-10) 0))
            (mk_fake (0.85 / 100)%float (-10) 0) (0.85 / 100)%float
            (mk_fake (0.85 / 100)%float (-10) 0) eq_refl _ eq_refl eq_refl).
  vm_compute. reflexivity.
Defined.

(** X17. The texts of the mute tools. When the flag read is [m] and the
    write, where one is made, returns: [mute] answers "System was already
    muted" for a non-zero flag and "System muted successfully" otherwise;
    [unmute] answers "System unmuted successfully" for a non-zero flag
    and "System was already unmuted" otherwise; [toggle_mute] answers
    "System unmuted successfully" for a non-zero flag and "System muted
    successfully" otherwise; each after its marker and a space. *)
Theorem mute_tools_text :
  forall (S : Type) (vc : VolumeController.t S) (ep : Endpoint S) (w : World S)
         (m : Z) (d1 : S),
    VolumeController._volume vc = Some ep ->
    GetMute ep (device w) = (Ok m, d1) ->
    (forall v, exists d2, SetMute ep v d1 = (Ok tt, d2)) ->
    (exists w', mute vc w =
       (Ok (mute_mark ++ " " ++
              (if m =? 0 then "System muted successfully"
               else "System was already muted")), w')) /\
    (exists w', unmute vc w =
       (Ok (muted_speaker_mark ++ " " ++
              (if m =? 0 then "System was already unmuted"
               else "System unmuted successfully")), w')) /\
    (exists w', toggle_mute vc w =
       (Ok (muted_speaker_mark ++ " " ++
              (if m =? 0 then "System muted successfully"
               else "System unmuted successfully")), w')).
Proof.
  intros S vc ep w m d1 Hep Hget Hset.
  destruct (Hset 0) as (d0 & Hset0). destruct (Hset 1) as (d2 & Hset1).
  repeat split; run_tool; run; rewrite Hep; cbn [device calls log]; rewrite Hget;
    cbn [device calls log]; unfold truthy;
    destruct (m =? 0); cbn [negb device calls log];
    rewrite ?Hset0, ?Hset1; eexists; reflexivity.
Qed.

Lemma mute_tools_text_witness :
  (exists w', mute fake_controller (fresh_world (mk_fake 0.5 (-10) 0)) =
     (Ok (mute_mark ++ " System muted successfully"), w')) /\
  (exists w', unmute fake_controller (fresh_world (mk_fake 0.5 (-10) 0)) =
     (Ok (muted_speaker_mark ++ " System was already unmuted"), w')) /\
  (exists w', toggle_mute fake_controller (fresh_world (mk_fake 0.5 (-10) 0)) =
     (Ok (muted_speaker_mark ++ " System muted successfully"), w')).
Proof.
  apply (mute_tools_text FakeDevice fake_controller fake_endpoint
           (fresh_world (mk_fake 0.5 (-10) 0)) 0 (mk_fake 0.5 (-10) 0) eq_refl eq_refl).
  intros v. eexists. reflexivity.
Defined.
